(** * Pricing webhooks of the metafield-defaults app

    A shallow embedding of the two webhook handlers
    ([app/routes/webhooks.products.update.jsx] and the products/create
    handler) and of the settings action that stores the tenant defaults,
    followed by the properties of the pipeline.

    Conventions of the embedding.
    - A JavaScript number is a value of [JS.number]: not-a-number, a signed
      infinity, or a finite value.  Finite values are exact rationals: the
      binary rounding of IEEE doubles, overflow to infinity and the sign of
      zero are not represented (a zero is the positive zero).  The
      arithmetic on the special values is the one of JavaScript.
    - A JavaScript string is a [string], the sequence of its UTF-8 bytes.
    - Every [await] of the handlers is answered by an environment [Env]
      and is recorded in a trace of events; an exception is an explicit
      [Throw] completion.  Of the console output, the messages that mark a
      branch of a handler are recorded, the others are left out. *)

From Stdlib Require Import QArith Qround Qabs ZArith String Ascii List Bool.
From Stdlib Require Import DecimalString DecimalN DecimalPos Lia Lqa.
Import ListNotations.

Local Open Scope string_scope.
Local Open Scope Q_scope.

(** ** JavaScript values and built-ins *)

Module JS.

Inductive number : Type :=
| NaN
| Inf (negative : bool)
| Fin (q : Q).

Definition isNaN (x : number) : bool :=
  match x with NaN => true | _ => false end.

Definition isFinite (x : number) : bool :=
  match x with Fin _ => true | _ => false end.

Definition Qltb (a b : Q) : bool :=
  match a ?= b with Lt => true | _ => false end.

(** [x + y] *)
Definition add (x y : number) : number :=
  match x, y with
  | NaN, _ | _, NaN => NaN
  | Inf a, Inf b => if Bool.eqb a b then Inf a else NaN
  | Inf a, Fin _ | Fin _, Inf a => Inf a
  | Fin a, Fin b => Fin (Qred (a + b))
  end.

(** [-x] *)
Definition neg (x : number) : number :=
  match x with
  | NaN => NaN
  | Inf a => Inf (negb a)
  | Fin a => Fin (Qred (- a))
  end.

(** [x - y] *)
Definition sub (x y : number) : number := add x (neg y).

(** [x * y] *)
Definition mul (x y : number) : number :=
  match x, y with
  | NaN, _ | _, NaN => NaN
  | Inf a, Inf b => Inf (xorb a b)
  | Inf a, Fin q | Fin q, Inf a =>
      match q ?= 0 with
      | Eq => NaN
      | Lt => Inf (negb a)
      | Gt => Inf a
      end
  | Fin a, Fin b => Fin (Qred (a * b))
  end.

(** [x / y]; a finite non-zero value over zero is an infinity, zero over
    zero is not-a-number. *)
Definition div (x y : number) : number :=
  match x, y with
  | NaN, _ | _, NaN => NaN
  | Inf _, Inf _ => NaN
  | Inf a, Fin q => Inf (xorb a (Qltb q 0))
  | Fin _, Inf _ => Fin 0
  | Fin a, Fin b =>
      match b ?= 0 with
      | Eq =>
          match a ?= 0 with
          | Eq => NaN
          | Lt => Inf true
          | Gt => Inf false
          end
      | _ => Fin (Qred (a / b))
      end
  end.

(** [x > y]; every comparison with not-a-number is false. *)
Definition gt (x y : number) : bool :=
  match x, y with
  | NaN, _ | _, NaN => false
  | Inf a, Inf b => andb (negb a) b
  | Inf a, Fin _ => negb a
  | Fin _, Inf b => b
  | Fin a, Fin b => Qltb b a
  end.

Declare Scope js_scope.
Delimit Scope js_scope with js.
Bind Scope js_scope with number.
Infix "+" := add : js_scope.
Infix "-" := sub : js_scope.
Infix "*" := mul : js_scope.
Infix "/" := div : js_scope.
Infix ">" := gt : js_scope.

(** A numeric literal of the source. *)
Definition lit (q : Q) : number := Fin (Qred q).

(** *** Strings *)

Definition is_lower (c : ascii) : bool :=
  let n := nat_of_ascii c in (97 <=? n)%nat && (n <=? 122)%nat.

Definition upper_char (c : ascii) : ascii :=
  if is_lower c then ascii_of_nat (nat_of_ascii c - 32) else c.

(** [s.toUpperCase()] on the ASCII letters.  The other code points are left
    as they are; none of them has [O], [A] or [K] as its upper-case form, so
    the comparison of the result with ["OOAK"] is the one of the source. *)
Fixpoint toUpperCase (s : string) : string :=
  match s with
  | EmptyString => EmptyString
  | String c r => String (upper_char c) (toUpperCase r)
  end.

(** Truthiness of a nullable string ([null] and [""] are falsy). *)
Definition truthy (v : option string) : bool :=
  match v with
  | None => false
  | Some s => negb (String.eqb s "")
  end.

(** [array.find(pred)] *)
Definition find {A : Type} (pred : A -> bool) (l : list A) : option A :=
  List.find pred l.

(** *** [parseFloat]

    The longest prefix of the trimmed string that is a [StrDecimalLiteral]
    is read; its value is taken exactly. *)

Definition bytes (l : list nat) : string :=
  string_of_list_ascii (List.map ascii_of_nat l).

(** [StrWhiteSpaceChar]: white space and line terminators, as UTF-8. *)
Definition StrWhiteSpaceChar : list string :=
  List.map bytes
    [ [9]; [10]; [11]; [12]; [13]; [32]; [194; 160]; [225; 154; 128];
      [226; 128; 128]; [226; 128; 129]; [226; 128; 130]; [226; 128; 131];
      [226; 128; 132]; [226; 128; 133]; [226; 128; 134]; [226; 128; 135];
      [226; 128; 136]; [226; 128; 137]; [226; 128; 138]; [226; 128; 168];
      [226; 128; 169]; [226; 128; 175]; [226; 129; 159]; [227; 128; 128];
      [239; 187; 191] ]%nat.

Fixpoint strip_prefix (p s : string) : option string :=
  match p with
  | EmptyString => Some s
  | String a p' =>
      match s with
      | EmptyString => None
      | String b s' => if Ascii.eqb a b then strip_prefix p' s' else None
      end
  end.

Fixpoint strip_any (ps : list string) (s : string) : option string :=
  match ps with
  | [] => None
  | p :: ps' =>
      match strip_prefix p s with
      | Some r => Some r
      | None => strip_any ps' s
      end
  end.

Fixpoint trimStart_from (fuel : nat) (s : string) : string :=
  match fuel with
  | O => s
  | S fuel' =>
      match strip_any StrWhiteSpaceChar s with
      | Some r => trimStart_from fuel' r
      | None => s
      end
  end.

Definition trimStart (s : string) : string :=
  trimStart_from (String.length s) s.

Definition digit_of (c : ascii) : option Z :=
  let n := nat_of_ascii c in
  if ((48 <=? n) && (n <=? 57))%nat then Some (Z.of_nat (n - 48)) else None.

(** [DecimalDigits]: the longest run of digits and what follows it. *)
Fixpoint decimalDigits (s : string) : list Z * string :=
  match s with
  | EmptyString => ([], s)
  | String c r =>
      match digit_of c with
      | Some d => let (ds, rest) := decimalDigits r in (d :: ds, rest)
      | None => ([], s)
      end
  end.

Definition digitsValue (ds : list Z) : Z :=
  List.fold_left (fun acc d => (10 * acc + d)%Z) ds 0%Z.

(** An optional sign: whether it is a minus, and what follows. *)
Definition signOf (s : string) : bool * string :=
  match s with
  | String c r =>
      if Ascii.eqb c "+" then (false, r)
      else if Ascii.eqb c "-" then (true, r)
      else (false, s)
  | EmptyString => (false, s)
  end.

(** [ExponentPart], when one with at least one digit follows. *)
Definition exponentPart (s : string) : Z :=
  match s with
  | String c r =>
      if Ascii.eqb c "e" || Ascii.eqb c "E" then
        let (negative, r') := signOf r in
        match fst (decimalDigits r') with
        | [] => 0%Z
        | ds => if negative then (- digitsValue ds)%Z else digitsValue ds
        end
      else 0%Z
  | EmptyString => 0%Z
  end.

Definition parseFloat (s : string) : number :=
  let (negative, u) := signOf (trimStart s) in
  match strip_prefix "Infinity" u with
  | Some _ => Inf negative
  | None =>
      let (ip, r1) := decimalDigits u in
      let (fp, r2) :=
        match r1 with
        | String c r => if Ascii.eqb c "." then decimalDigits r else ([], r1)
        | EmptyString => ([], r1)
        end in
      match (ip ++ fp)%list with
      | [] => NaN
      | ds =>
          let e := (exponentPart r2 - Z.of_nat (List.length fp))%Z in
          let v := inject_Z (digitsValue ds) * Qpower 10 e in
          Fin (Qred (if negative then - v else v))
      end
  end.

(** *** [toFixed(2)] *)

Definition decimalString (n : Z) : string :=
  NilZero.string_of_uint (N.to_uint (Z.to_N n)).

Fixpoint zeros (k : nat) : string :=
  match k with
  | O => ""
  | S k' => String "0" (zeros k')
  end.

Section ToFixed.

(** [Number::toString] on the finite values of magnitude [10^21] and above,
    which [toFixed] prints in exponent notation.  That notation is the
    shortest one that reads back as the same double; it is outside this
    representation of numbers and is taken as given. *)
Variable Number_toString : Q -> string.

(** [x.toFixed(2)]: the integer [n] nearest to [100 * |x|], the larger one
    of two, printed with a point before its last two digits. *)
Definition toFixed2 (x : number) : string :=
  match x with
  | NaN => "NaN"
  | Inf false => "Infinity"
  | Inf true => "-Infinity"
  | Fin q =>
      let s := if Qltb q 0 then "-" else "" in
      let a := Qabs q in
      let m :=
        if Qle_bool (inject_Z (10 ^ 21)) a then Number_toString a
        else
          let n := Qfloor (a * 100 + (1 # 2)) in
          let m0 := decimalString n in
          let k := String.length m0 in
          let m1 := if (k <=? 2)%nat then zeros (3 - k) ++ m0 else m0 in
          let k1 := String.length m1 in
          substring 0 (k1 - 2) m1 ++ "." ++ substring (k1 - 2) 2 m1 in
      s ++ m
  end.

End ToFixed.

End JS.

Import JS.

(** ** The data of the app *)

(** A stored offline session. *)
Record Session : Type := { accessToken : string }.

(** [{ id }] of the webhook payload. *)
Record Payload : Type := { id : N }.

(** What [authenticate.webhook(request)] hands to a handler. *)
Record Webhook : Type := { shop : string; topic : string; payload : Payload }.

(** [edge.node] of the metafields query. *)
Module Node.
Record t : Type := { namespace : string; key : string; value : string }.
End Node.

(** An element of the [metafields] variable of the [metafieldsSet]
    mutation. *)
Module Input.
Record t : Type :=
  { ownerId : string; namespace : string; key : string; value : string;
    type : string }.
End Input.

Record UserError : Type := { field : list string; message : string }.

(** Modelled from the spec: the row type of [prisma.metafieldDefaults],
    whose schema is not among the sources.  One row per shop, every value
    optional; the fields have the names under which the handlers read them
    and hold the strings that the settings action stores. *)
Module MetafieldDefaults.
Record t : Type :=
  { shop : string;
    etsyDiscount : option string;
    shipping : option string;
    vat : option string;
    normalMultiplier : option string;
    ooakMultiplier : option string;
    etsyMarkupProfit : option string;
    hourlyRate : option string;
    rarity : option string }.
End MetafieldDefaults.

(** The parsed JSON of the metafields query, as far as the handler looks
    into it: [edges] is [data?.product?.metafields?.edges]. *)
Record ProductData : Type := { edges : option (list Node.t) }.

(** The parsed JSON of the mutation: [userErrors] is
    [data?.metafieldsSet?.userErrors], [errors] is whether [errors] is
    truthy. *)
Record SetResult : Type :=
  { userErrors : option (list UserError); errors : bool }.

(** [new Response(body, { status })] *)
Record Response : Type := { body : option string; status : N }.

(** ** Effects *)

Inductive Error : Type :=
| TypeError
| Rejection (reason : string).

Inductive GraphqlRequest : Type :=
| GetProductMetafields (id : string)
| MetafieldsSet (metafields : list Input.t).

(** The console messages that mark a branch of a handler. *)
Inductive Message : Type :=
| NoSessionFound (shop : string)
| SkippingCalculation
| NoDefaultsFound
| NoValuesToApply
| ErrorSettingMetafields (errs : list UserError)
| MetafieldsWritten
| GraphQLErrors
| ErrorInWebhook (e : Error).

Inductive Event : Type :=
| LoadSession (id : string)
| Fetch (shop token : string) (request : GraphqlRequest)
| FindUnique (shop : string)
| Console (m : Message).

(** The answers of the outside world; [inl] is a rejected promise. *)
Record Env : Type :=
  { authenticate_webhook : string -> Error + Webhook;
    sessionStorage_loadSession : string -> Error + option Session;
    prisma_findUnique : string -> Error + option MetafieldDefaults.t;
    (** [response.json()] of the two requests; [None] is a JSON [null] *)
    query_json : string -> string -> string -> Error + option ProductData;
    mutation_json :
      string -> string -> list Input.t -> Error + option SetResult }.

Inductive Completion (A : Type) : Type :=
| Normal (a : A)
| Throw (e : Error).
Arguments Normal {A} a.
Arguments Throw {A} e.

Definition Trace := list Event.

(** A computation that extends the trace and completes normally or
    abruptly. *)
Definition Async (A : Type) : Type := Trace -> Completion A * Trace.

Definition ret {A : Type} (a : A) : Async A := fun tr => (Normal a, tr).

Definition throw {A : Type} (e : Error) : Async A := fun tr => (Throw e, tr).

Definition bind {A B : Type} (m : Async A) (k : A -> Async B) : Async B :=
  fun tr =>
    match m tr with
    | (Normal a, tr') => k a tr'
    | (Throw e, tr') => (Throw e, tr')
    end.

Notation "x <- m ;; k" := (bind m (fun x => k))
  (at level 61, m at next level, right associativity).
Notation "m ;;; k" := (bind m (fun _ => k))
  (at level 61, right associativity).

(** [try { body } catch (error) { handler }] *)
Definition try_catch {A : Type} (body : Async A) (handler : Error -> Async A)
  : Async A :=
  fun tr =>
    match body tr with
    | (Normal a, tr') => (Normal a, tr')
    | (Throw e, tr') => handler e tr'
    end.

Definition emit (ev : Event) : Async unit :=
  fun tr => (Normal tt, (tr ++ [ev])%list).

(** [await] of a call: the call is recorded, then its promise settles. *)
Definition await {A : Type} (ev : option Event) (answer : Error + A)
  : Async A :=
  fun tr =>
    let tr' := match ev with Some e => (tr ++ [e])%list | None => tr end in
    match answer with
    | inl e => (Throw e, tr')
    | inr a => (Normal a, tr')
    end.

Definition console (m : Message) : Async unit := emit (Console m).

(** [run m]: the completion and the trace of [m] from the empty trace. *)
Definition run {A : Type} (m : Async A) : Completion A * Trace := m [].

Definition writes (tr : Trace) : list (list Input.t) :=
  List.flat_map
    (fun ev =>
       match ev with
       | Fetch _ _ (MetafieldsSet l) => [l]
       | _ => []
       end) tr.

Definition reads (tr : Trace) : list string :=
  List.flat_map
    (fun ev =>
       match ev with
       | Fetch _ _ (GetProductMetafields i) => [i]
       | _ => []
       end) tr.

(** [`gid://shopify/Product/${productId}`] *)
Definition productGid_of (productId : N) : string :=
  "gid://shopify/Product/" ++ NilZero.string_of_uint (N.to_uint productId).

Definition new_Response (body : option string) (status : N) : Response :=
  {| body := body; status := status |}.

(** ** The products/update webhook
    ([app/routes/webhooks.products.update.jsx]) *)

Module Update.

(** The constants of the calculation block, under their names in the
    source. *)
Record Calculated : Type :=
  { hourlyRate : number;
    markup : number;
    vat : number;
    shipping : number;
    discount : number;
    normalMultiplier : number;
    ooakMultiplier : number;
    rarityMultiplier : number;
    labor : number;
    totalCost : number;
    base : number;
    rarityAdjusted : number;
    subtotal : number;
    priceWithVat : number;
    etsyFeesAmount : number;
    finalEtsyPrice : number;
    etsyFees : number;
    marketBase : number;
    marketPrice : number }.

(** [v ? parseFloat(v) : otherwise] *)
Definition parseOr (v : option string) (otherwise : number) : number :=
  match v with
  | Some s => if truthy v then parseFloat s else otherwise
  | None => otherwise
  end.

(** Lines 86 to 125: the defaults are parsed, the multiplier is chosen and
    the prices are calculated. *)
Definition calculations (materialCosts hoursWorked : number)
    (productRarity : string) (defaults : MetafieldDefaults.t) : Calculated :=
  let hourlyRate := parseOr (MetafieldDefaults.hourlyRate defaults) (lit 0) in
  let markup := parseOr (MetafieldDefaults.etsyMarkupProfit defaults) (lit 0) in
  let vat := parseOr (MetafieldDefaults.vat defaults) (lit 0) in
  let shipping := parseOr (MetafieldDefaults.shipping defaults) (lit 0) in
  let discount := parseOr (MetafieldDefaults.etsyDiscount defaults) (lit 0) in
  let normalMultiplier :=
    parseOr (MetafieldDefaults.normalMultiplier defaults) (lit 1.2) in
  let ooakMultiplier :=
    parseOr (MetafieldDefaults.ooakMultiplier defaults) (lit 2) in
  let rarityMultiplier :=
    if (toUpperCase productRarity =? "OOAK")%string
    then ooakMultiplier else normalMultiplier in
  let labor := (hoursWorked * hourlyRate)%js in
  let totalCost := (materialCosts + labor)%js in
  let base := ((materialCosts + labor) * (lit 1 + markup / lit 100))%js in
  let rarityAdjusted := (base * rarityMultiplier)%js in
  let subtotal := (rarityAdjusted + shipping)%js in
  let priceWithVat := (subtotal * (lit 1 + vat / lit 100))%js in
  let etsyFeesAmount := ((priceWithVat * lit 0.095) + lit 0.20)%js in
  let finalEtsyPrice := (priceWithVat + etsyFeesAmount)%js in
  let finalEtsyPrice :=
    if (discount > lit 0)%js
    then (finalEtsyPrice / (lit 1 - discount / lit 100))%js
    else finalEtsyPrice in
  let etsyFees := etsyFeesAmount in
  let marketBase := ((materialCosts + labor) * lit 1.05)%js in
  let marketPrice := (marketBase * rarityMultiplier)%js in
  {| hourlyRate := hourlyRate; markup := markup; vat := vat;
     shipping := shipping; discount := discount;
     normalMultiplier := normalMultiplier; ooakMultiplier := ooakMultiplier;
     rarityMultiplier := rarityMultiplier; labor := labor;
     totalCost := totalCost; base := base; rarityAdjusted := rarityAdjusted;
     subtotal := subtotal; priceWithVat := priceWithVat;
     etsyFeesAmount := etsyFeesAmount; finalEtsyPrice := finalEtsyPrice;
     etsyFees := etsyFees; marketBase := marketBase;
     marketPrice := marketPrice |}.

(** [rarityField?.node.value || "NORMAL"] *)
Definition productRarity_of (rarityField : option Node.t) : string :=
  match rarityField with
  | Some edge =>
      if (Node.value edge =? "")%string then "NORMAL" else Node.value edge
  | None => "NORMAL"
  end.

Definition has_key (k : string) (edge : Node.t) : bool :=
  (Node.key edge =? k)%string.

Section Handler.

Variable Number_toString : Q -> string.

Definition metafieldsToSet (productGid : string) (c : Calculated)
  : list Input.t :=
  [ {| Input.ownerId := productGid; Input.namespace := "custom";
       Input.key := "total_cost";
       Input.value := toFixed2 Number_toString (totalCost c);
       Input.type := "number_decimal" |};
    {| Input.ownerId := productGid; Input.namespace := "custom";
       Input.key := "etsy_price";
       Input.value := toFixed2 Number_toString (finalEtsyPrice c);
       Input.type := "number_decimal" |};
    {| Input.ownerId := productGid; Input.namespace := "custom";
       Input.key := "etsy_fees";
       Input.value := toFixed2 Number_toString (etsyFees c);
       Input.type := "number_decimal" |};
    {| Input.ownerId := productGid; Input.namespace := "custom";
       Input.key := "market_price";
       Input.value := toFixed2 Number_toString (marketPrice c);
       Input.type := "number_decimal" |} ].

Variable env : Env.

(** The [try] block; [Some response] is a [return] from inside it. *)
Definition guarded (w : Webhook) : Async (option Response) :=
  let productId := id (payload w) in
  let productGid := productGid_of productId in
  session <- await (Some (LoadSession ("offline_" ++ shop w)))
               (sessionStorage_loadSession env ("offline_" ++ shop w)) ;;
  match session with
  | None =>
      console (NoSessionFound (shop w)) ;;;
      ret (Some (new_Response None 200%N))
  | Some session =>
      productData <-
        await (Some (Fetch (shop w) (accessToken session)
                       (GetProductMetafields productGid)))
          (query_json env (shop w) (accessToken session) productGid) ;;
      metafields <-
        match productData with
        | None => throw TypeError
        | Some d => ret (match edges d with Some l => l | None => [] end)
        end ;;
      let materialCostsField := find (has_key "material_costs") metafields in
      let hoursWorkedField := find (has_key "hours_worked") metafields in
      let rarityField := find (has_key "rarity") metafields in
      let materialCosts :=
        match materialCostsField with
        | Some edge => Some (parseFloat (Node.value edge))
        | None => None
        end in
      let hoursWorked :=
        match hoursWorkedField with
        | Some edge => Some (parseFloat (Node.value edge))
        | None => None
        end in
      let productRarity := productRarity_of rarityField in
      match materialCosts, hoursWorked with
      | Some materialCosts, Some hoursWorked =>
          defaults <- await (Some (FindUnique (shop w)))
                        (prisma_findUnique env (shop w)) ;;
          match defaults with
          | None =>
              console NoDefaultsFound ;;;
              ret (Some (new_Response None 200%N))
          | Some defaults =>
              let c :=
                calculations materialCosts hoursWorked productRarity
                  defaults in
              let metafieldsToSet := metafieldsToSet productGid c in
              result <-
                await (Some (Fetch (shop w) (accessToken session)
                               (MetafieldsSet metafieldsToSet)))
                  (mutation_json env (shop w) (accessToken session)
                     metafieldsToSet) ;;
              match result with
              | Some {| userErrors := Some (e :: errs) |} =>
                  console (ErrorSettingMetafields (e :: errs))
              | _ => console MetafieldsWritten
              end ;;;
              ret None
          end
      | _, _ =>
          console SkippingCalculation ;;;
          ret (Some (new_Response None 200%N))
      end
  end.

Definition action (request : string) : Async Response :=
  w <- await None (authenticate_webhook env request) ;;
  r <- try_catch (guarded w)
         (fun error => console (ErrorInWebhook error) ;;; ret None) ;;
  match r with
  | Some response => ret response
  | None => ret (new_Response None 200%N)
  end.

End Handler.

End Update.

(** ** The products/create webhook *)

Module Create.

(** An object pushed on the [metafields] array. *)
Module Mf.
Record t : Type :=
  { namespace : string; key : string; value : string; type : string }.
End Mf.

(** [if (v) { metafields.push({ namespace: "custom", key, value: v, type }) }] *)
Definition push_if (v : option string) (key type : string)
    (metafields : list Mf.t) : list Mf.t :=
  match v with
  | Some s =>
      if truthy v
      then (metafields ++
            [ {| Mf.namespace := "custom"; Mf.key := key; Mf.value := s;
                 Mf.type := type |} ])%list
      else metafields
  | None => metafields
  end.

(** The [metafields] array built from the defaults. *)
Definition metafields_of (defaults : MetafieldDefaults.t) : list Mf.t :=
  let metafields := [] in
  let metafields :=
    push_if (MetafieldDefaults.etsyDiscount defaults)
      "etsy_discount" "number_decimal" metafields in
  let metafields :=
    push_if (MetafieldDefaults.shipping defaults)
      "shipping" "number_decimal" metafields in
  let metafields :=
    push_if (MetafieldDefaults.vat defaults)
      "vat" "number_decimal" metafields in
  let metafields :=
    push_if (MetafieldDefaults.normalMultiplier defaults)
      "normal_multiplier" "number_decimal" metafields in
  let metafields :=
    push_if (MetafieldDefaults.ooakMultiplier defaults)
      "ooak_multiplier" "number_decimal" metafields in
  let metafields :=
    push_if (MetafieldDefaults.rarity defaults)
      "rarity" "single_line_text_field" metafields in
  let metafields :=
    push_if (MetafieldDefaults.etsyMarkupProfit defaults)
      "etsy_markup_profit" "number_decimal" metafields in
  let metafields :=
    push_if (MetafieldDefaults.hourlyRate defaults)
      "hourly_rate" "number_decimal" metafields in
  metafields.

Definition metafieldsSetInput (productGid : string) (metafields : list Mf.t)
  : list Input.t :=
  List.map
    (fun mf =>
       {| Input.ownerId := productGid; Input.namespace := Mf.namespace mf;
          Input.key := Mf.key mf; Input.value := Mf.value mf;
          Input.type := Mf.type mf |})
    metafields.

Section Handler.

Variable env : Env.

(** The [try] block; [Some response] is a [return] from inside it. *)
Definition guarded (w : Webhook) : Async (option Response) :=
  let productId := id (payload w) in
  let productGid := productGid_of productId in
  let sessionId := "offline_" ++ shop w in
  session <- await (Some (LoadSession sessionId))
               (sessionStorage_loadSession env sessionId) ;;
  match session with
  | None =>
      console (NoSessionFound (shop w)) ;;;
      ret (Some (new_Response None 200%N))
  | Some session =>
      defaults <- await (Some (FindUnique (shop w)))
                    (prisma_findUnique env (shop w)) ;;
      match defaults with
      | None =>
          console NoDefaultsFound ;;;
          ret (Some (new_Response None 200%N))
      | Some defaults =>
          let metafields := metafields_of defaults in
          if (List.length metafields =? 0)%nat then
            console NoValuesToApply ;;;
            ret (Some (new_Response None 200%N))
          else
            let metafieldsSetInput :=
              metafieldsSetInput productGid metafields in
            result <-
              await (Some (Fetch (shop w) (accessToken session)
                             (MetafieldsSet metafieldsSetInput)))
                (mutation_json env (shop w) (accessToken session)
                   metafieldsSetInput) ;;
            match result with
            | None => throw TypeError
            | Some r =>
                match userErrors r with
                | Some (e :: errs) =>
                    console (ErrorSettingMetafields (e :: errs))
                | _ => console MetafieldsWritten
                end ;;;
                (if errors r then console GraphQLErrors else ret tt) ;;;
                ret None
            end
      end
  end.

Definition action (request : string) : Async Response :=
  w <- await None (authenticate_webhook env request) ;;
  r <- try_catch (guarded w)
         (fun error => console (ErrorInWebhook error) ;;; ret None) ;;
  match r with
  | Some response => ret response
  | None => ret (new_Response None 200%N)
  end.

End Handler.

End Create.

(** ** The settings action that stores the defaults *)

Module Settings.

(** [formData.get(name)]: [None] when the form has no such entry. *)
Definition FormData := string -> option string.

(** [v || null] *)
Definition orNull (v : option string) : option string :=
  if truthy v then v else None.

(** The [data] object that the action upserts. *)
Definition data (shop : string) (formData : FormData) : MetafieldDefaults.t :=
  {| MetafieldDefaults.shop := shop;
     MetafieldDefaults.etsyDiscount := orNull (formData "etsyDiscount");
     MetafieldDefaults.shipping := orNull (formData "shipping");
     MetafieldDefaults.vat := orNull (formData "vat");
     MetafieldDefaults.normalMultiplier :=
       orNull (formData "normalMultiplier");
     MetafieldDefaults.ooakMultiplier := orNull (formData "ooakMultiplier");
     MetafieldDefaults.etsyMarkupProfit :=
       orNull (formData "etsyMarkupProfit");
     MetafieldDefaults.hourlyRate := orNull (formData "hourlyRate");
     MetafieldDefaults.rarity := orNull (formData "rarity") |}.

End Settings.

(** ** The pricing chain as the specification words it

    The second definition of the calculation, written from the
    specification's algorithm, to be compared with [Update.calculations]. *)

Module Spec.

Record DerivedPricing : Type :=
  { labor : number;
    totalCost : number;
    markedUp : number;
    rarityAdjusted : number;
    subtotal : number;
    priceWithTax : number;
    platformFee : number;
    salePrice : number;
    marketPrice : number }.

Definition compute (materialCost hoursWorked hourlyRate markup multiplier
    shipping tax discount : number) : DerivedPricing :=
  let labor := (hoursWorked * hourlyRate)%js in
  let totalCost := (materialCost + labor)%js in
  let markedUp := (totalCost * (lit 1 + markup / lit 100))%js in
  let rarityAdjusted := (markedUp * multiplier)%js in
  let subtotal := (rarityAdjusted + shipping)%js in
  let priceWithTax := (subtotal * (lit 1 + tax / lit 100))%js in
  let platformFee := (priceWithTax * lit 0.095 + lit 0.20)%js in
  let salePrice := (priceWithTax + platformFee)%js in
  let salePrice :=
    if (discount > lit 0)%js
    then (salePrice / (lit 1 - discount / lit 100))%js
    else salePrice in
  let marketPrice := (totalCost * lit 1.05 * multiplier)%js in
  {| labor := labor; totalCost := totalCost; markedUp := markedUp;
     rarityAdjusted := rarityAdjusted; subtotal := subtotal;
     priceWithTax := priceWithTax; platformFee := platformFee;
     salePrice := salePrice; marketPrice := marketPrice |}.

End Spec.

(** ** The platform's side of a delivery

    The catalog that the two GraphQL requests read and write, so that a
    notification can be delivered again to the state its first delivery
    left.  The catalog is the list of the metafields of all products in the
    order of their creation; [metafieldsSet] overwrites the value of an
    existing metafield in place and appends a new one, and leaves out the
    inputs that the platform rejects. *)

Module Remote.

Definition Catalog := list Input.t.

Definition same_slot (a b : Input.t) : bool :=
  ((Input.ownerId a =? Input.ownerId b)
   && (Input.namespace a =? Input.namespace b)
   && (Input.key a =? Input.key b))%string.

Fixpoint upsert (i : Input.t) (cat : Catalog) : Catalog :=
  match cat with
  | [] => [i]
  | m :: rest => if same_slot i m then i :: rest else m :: upsert i rest
  end.

Definition node_of (m : Input.t) : Node.t :=
  {| Node.namespace := Input.namespace m; Node.key := Input.key m;
     Node.value := Input.value m |}.

Definition in_custom (gid : string) (m : Input.t) : bool :=
  ((Input.ownerId m =? gid) && (Input.namespace m =? "custom"))%string.

Definition upserts (l : list Input.t) (cat : Catalog) : Catalog :=
  List.fold_left (fun c i => upsert i c) l cat.

(** [metafields(first: 20, namespace: "custom")] of the product. *)
Definition metafields_query (cat : Catalog) (gid : string) : list Node.t :=
  List.firstn 20 (List.map node_of (List.filter (in_custom gid) cat)).

(** What stays the same between deliveries. *)
Record Upstream : Type :=
  { webhook : string -> Error + Webhook;
    sessions : string -> Error + option Session;
    defaults : string -> Error + option MetafieldDefaults.t;
    accepts : Input.t -> bool }.

Definition metafieldsSet (u : Upstream) (metafields : list Input.t)
    (cat : Catalog) : Catalog :=
  List.fold_left (fun c i => if accepts u i then upsert i c else c)
    metafields cat.

Definition userErrors_of (u : Upstream) (metafields : list Input.t)
  : list UserError :=
  List.map
    (fun i => {| field := ["metafields"; Input.key i];
                 message := "rejected" |})
    (List.filter (fun i => negb (accepts u i)) metafields).

Definition env_of (u : Upstream) (cat : Catalog) : Env :=
  {| authenticate_webhook := webhook u;
     sessionStorage_loadSession := sessions u;
     prisma_findUnique := defaults u;
     query_json := fun _ _ gid =>
       inr (Some {| edges := Some (metafields_query cat gid) |});
     mutation_json := fun _ _ metafields =>
       inr (Some {| userErrors := Some (userErrors_of u metafields);
                    errors := false |}) |}.

(** One delivery of a notification to a handler: its completion, its trace
    and the catalog after the writes of the trace. *)
Definition deliver (handler : Env -> string -> Async Response)
    (u : Upstream) (request : string) (cat : Catalog)
  : Completion Response * Trace * Catalog :=
  let (c, tr) := run (handler (env_of u cat) request) in
  (c, tr, List.fold_left (fun cat l => metafieldsSet u l cat) (writes tr) cat).

End Remote.

(** ** Concrete deliveries *)

Module Examples.

(** No value of the examples reaches [10^21], so the exponent notation is
    never asked for; this stand-in answers the empty string. *)
Definition no_exponent_notation : Q -> string := fun _ => "".

Definition the_webhook : Webhook :=
  {| shop := "demo.myshopify.com"; topic := "PRODUCTS_UPDATE";
     payload := {| id := 42 |} |}.

Definition the_session : Session := {| accessToken := "shpat_demo" |}.

Definition node (k v : string) : Node.t :=
  {| Node.namespace := "custom"; Node.key := k; Node.value := v |}.

(** An environment without faults: the item has the metafields [nodes],
    the shop has the defaults [defaults], the platform accepts every write. *)
Definition env_with (nodes : list Node.t)
    (defaults : option MetafieldDefaults.t) : Env :=
  {| authenticate_webhook := fun _ => inr the_webhook;
     sessionStorage_loadSession := fun _ => inr (Some the_session);
     prisma_findUnique := fun _ => inr defaults;
     query_json := fun _ _ _ => inr (Some {| edges := Some nodes |});
     mutation_json := fun _ _ _ =>
       inr (Some {| userErrors := Some []; errors := false |}) |}.

(** Vector A of the specification. *)
Definition item_A : list Node.t :=
  [ node "material_costs" "10"; node "hours_worked" "2";
    node "rarity" "NORMAL" ].

Definition defaults_A : MetafieldDefaults.t :=
  {| MetafieldDefaults.shop := "demo.myshopify.com";
     MetafieldDefaults.etsyDiscount := Some "10";
     MetafieldDefaults.shipping := Some "5";
     MetafieldDefaults.vat := Some "21";
     MetafieldDefaults.normalMultiplier := Some "1.2";
     MetafieldDefaults.ooakMultiplier := None;
     MetafieldDefaults.etsyMarkupProfit := Some "20";
     MetafieldDefaults.hourlyRate := Some "15";
     MetafieldDefaults.rarity := None |}.

(** A defaults row with no value at all. *)
Definition defaults_empty : MetafieldDefaults.t :=
  {| MetafieldDefaults.shop := "demo.myshopify.com";
     MetafieldDefaults.etsyDiscount := None;
     MetafieldDefaults.shipping := None;
     MetafieldDefaults.vat := None;
     MetafieldDefaults.normalMultiplier := None;
     MetafieldDefaults.ooakMultiplier := None;
     MetafieldDefaults.etsyMarkupProfit := None;
     MetafieldDefaults.hourlyRate := None;
     MetafieldDefaults.rarity := None |}.

(** A defaults row with a discount of 200 percent and nothing else. *)
Definition defaults_discount_200 : MetafieldDefaults.t :=
  {| MetafieldDefaults.shop := "demo.myshopify.com";
     MetafieldDefaults.etsyDiscount := Some "200";
     MetafieldDefaults.shipping := None;
     MetafieldDefaults.vat := None;
     MetafieldDefaults.normalMultiplier := None;
     MetafieldDefaults.ooakMultiplier := None;
     MetafieldDefaults.etsyMarkupProfit := None;
     MetafieldDefaults.hourlyRate := None;
     MetafieldDefaults.rarity := None |}.

(** The same, but the request of the mutation fails in transport. *)
Definition env_write_fails (nodes : list Node.t)
    (defaults : option MetafieldDefaults.t) : Env :=
  {| authenticate_webhook := fun _ => inr the_webhook;
     sessionStorage_loadSession := fun _ => inr (Some the_session);
     prisma_findUnique := fun _ => inr defaults;
     query_json := fun _ _ _ => inr (Some {| edges := Some nodes |});
     mutation_json := fun _ _ _ => inl (Rejection "fetch failed") |}.

(** The item of Vector A after the derived attributes were written. *)
Definition item_A_written : list Node.t :=
  (item_A ++
   [ node "total_cost" "40.00"; node "etsy_price" "92.38";
     node "etsy_fees" "7.40"; node "market_price" "50.40" ])%list.

Definition derived (total_cost etsy_price etsy_fees market_price : string)
  : list Input.t :=
  List.map
    (fun kv =>
       {| Input.ownerId := "gid://shopify/Product/42";
          Input.namespace := "custom"; Input.key := fst kv;
          Input.value := snd kv; Input.type := "number_decimal" |})
    [ ("total_cost", total_cost); ("etsy_price", etsy_price);
      ("etsy_fees", etsy_fees); ("market_price", market_price) ].

End Examples.

(** ** Vocabulary of the statements *)

(** The fixed success acknowledgement. *)
Definition acknowledged (r : Completion Response * Trace) : Prop :=
  fst r = Normal {| body := None; status := 200%N |}.

(** No [metafieldsSet] mutation was sent. *)
Definition no_write (r : Completion Response * Trace) : Prop :=
  writes (snd r) = [].

(** [data?.product?.metafields?.edges || []] *)
Definition edges_or_empty (d : ProductData) : list Node.t :=
  match edges d with Some l => l | None => [] end.

(** The metafields of the item as the update handler gets to see them:
    none without a session or without an answer to the query. *)
Definition fetched (env : Env) (w : Webhook) : list Node.t :=
  match sessionStorage_loadSession env ("offline_" ++ shop w) with
  | inr (Some session) =>
      match query_json env (shop w) (accessToken session)
              (productGid_of (id (payload w))) with
      | inr (Some d) => edges_or_empty d
      | _ => []
      end
  | _ => []
  end.

(** The attribute of the item under a key, as the handler finds it. *)
Definition attribute (k : string) (nodes : list Node.t) : option Node.t :=
  find (Update.has_key k) nodes.

(** The item attribute that the create handler writes for a field of the
    defaults: the field, the key and the type. *)
Definition seeded
  : list ((MetafieldDefaults.t -> option string) * string * string) :=
  [ (MetafieldDefaults.etsyDiscount, "etsy_discount", "number_decimal");
    (MetafieldDefaults.shipping, "shipping", "number_decimal");
    (MetafieldDefaults.vat, "vat", "number_decimal");
    (MetafieldDefaults.normalMultiplier, "normal_multiplier",
      "number_decimal");
    (MetafieldDefaults.ooakMultiplier, "ooak_multiplier", "number_decimal");
    (MetafieldDefaults.rarity, "rarity", "single_line_text_field");
    (MetafieldDefaults.etsyMarkupProfit, "etsy_markup_profit",
      "number_decimal");
    (MetafieldDefaults.hourlyRate, "hourly_rate", "number_decimal") ].

(** The keys of the derived attributes. *)
Definition derived_keys : list string :=
  [ "total_cost"; "etsy_price"; "etsy_fees"; "market_price" ].

(** No value of the defaults row is truthy. *)
Definition all_absent (defaults : MetafieldDefaults.t) : Prop :=
  truthy (MetafieldDefaults.etsyDiscount defaults) = false /\
  truthy (MetafieldDefaults.shipping defaults) = false /\
  truthy (MetafieldDefaults.vat defaults) = false /\
  truthy (MetafieldDefaults.etsyMarkupProfit defaults) = false /\
  truthy (MetafieldDefaults.hourlyRate defaults) = false /\
  truthy (MetafieldDefaults.normalMultiplier defaults) = false /\
  truthy (MetafieldDefaults.ooakMultiplier defaults) = false.

(** The configuration values of a calculation are all fallbacks. *)
Definition all_fallback (c : Update.Calculated) : Prop :=
  Update.discount c = lit 0 /\
  Update.shipping c = lit 0 /\
  Update.vat c = lit 0 /\
  Update.markup c = lit 0 /\
  Update.hourlyRate c = lit 0 /\
  Update.normalMultiplier c = lit 1.2 /\
  Update.ooakMultiplier c = lit 2.

(** The metafield that the create handler pushes for a value of the
    defaults, if any. *)
Definition pushed (v : option string) (key type : string) : list Create.Mf.t :=
  match v with
  | Some s =>
      if (s =? "")%string then []
      else [ {| Create.Mf.namespace := "custom"; Create.Mf.key := key;
                Create.Mf.value := s; Create.Mf.type := type |} ]
  | None => []
  end.

(** A value of the defaults is present: it is a string, and not the empty
    one. *)
Definition present (v : option string) (s : string) : Prop :=
  v = Some s /\ s <> "".

(** A finite number that is at least [b]. *)
Definition at_least (b : Q) (x : number) : Prop :=
  exists q, x = Fin q /\ b <= q.

(** The sale price before the discount is applied. *)
Definition price_before_discount (c : Update.Calculated) : number :=
  (Update.priceWithVat c + Update.etsyFeesAmount c)%js.

(** The inputs and the configuration values of a calculation are finite
    and not negative. *)
Definition non_negative_inputs (materialCosts hoursWorked : number)
    (c : Update.Calculated) : Prop :=
  at_least 0 materialCosts /\ at_least 0 hoursWorked /\
  at_least 0 (Update.hourlyRate c) /\ at_least 0 (Update.markup c) /\
  at_least 0 (Update.rarityMultiplier c) /\
  at_least 0 (Update.shipping c) /\ at_least 0 (Update.vat c).

(** The slot of a metafield in the catalog. *)
Definition slot (i : Input.t) : string * string * string :=
  (Input.ownerId i, Input.namespace i, Input.key i).

(** The attributes that the update handler reads. *)
Definition input_keys : list string :=
  [ "material_costs"; "hours_worked"; "rarity" ].

(** Two environments show the update handler the same inputs of the
    calculation: the same three attributes of the item and the same
    defaults row. *)
Definition same_inputs (env env' : Env) (w : Webhook) : Prop :=
  (forall k, In k input_keys ->
             attribute k (fetched env w) = attribute k (fetched env' w)) /\
  prisma_findUnique env (shop w) = prisma_findUnique env' (shop w).

(** The parts of a delivery. *)
Definition completion_of {A B C : Type} (r : A * B * C) : A := fst (fst r).
Definition trace_of {A B C : Type} (r : A * B * C) : B := snd (fst r).
Definition catalog_of {A B C : Type} (r : A * B * C) : C := snd r.

(** ** The settings page

    The loader, the action and the form of the page on which the merchant
    edits the defaults of the shop. *)

Module Page.

(** The table behind [prisma.metafieldDefaults], one row per shop. *)
Definition Db := list MetafieldDefaults.t.

Definition of_shop (shop : string) (row : MetafieldDefaults.t) : bool :=
  (MetafieldDefaults.shop row =? shop)%string.

(** [findUnique({ where: { shop } })] *)
Definition findUnique (db : Db) (shop : string)
  : option MetafieldDefaults.t :=
  List.find (of_shop shop) db.

(** [upsert({ where: { shop }, update: data, create: data })]: the row of
    the shop becomes [data], and is added when the shop has none. *)
Fixpoint upsert (shop : string) (data : MetafieldDefaults.t) (db : Db) : Db :=
  match db with
  | [] => [data]
  | row :: rest =>
      if of_shop shop row then data :: rest
      else row :: upsert shop data rest
  end.

Module LoaderData.
Record t : Type := { defaults : option MetafieldDefaults.t }.
End LoaderData.

Module ActionData.
Record t : Type := { success : bool; defaults : MetafieldDefaults.t }.
End ActionData.

Section Routes.

(** [authenticate.admin(request)]: the shop of the session, or a rejected
    promise. *)
Variable authenticate_admin : string -> Error + string.

(** [loader]: the row of the shop, or [null]. *)
Definition loader (request : string) (db : Db) : Error + LoaderData.t :=
  match authenticate_admin request with
  | inl e => inl e
  | inr shop => inr {| LoaderData.defaults := findUnique db shop |}
  end.

(** [action]: the posted form is stored as the row of the shop;
    [formData] is [await request.formData()]. *)
Definition action (request : string) (formData : Settings.FormData)
    (db : Db) : Error + (ActionData.t * Db) :=
  match authenticate_admin request with
  | inl e => inl e
  | inr shop =>
      let data := Settings.data shop formData in
      let result := data in
      inr ({| ActionData.success := true; ActionData.defaults := result |},
           upsert shop data db)
  end.

End Routes.

(** The fields of the form, in the order of the state object. *)
Inductive Field : Type :=
| etsyDiscount
| shipping
| vat
| normalMultiplier
| ooakMultiplier
| etsyMarkupProfit
| hourlyRate
| rarity.

Definition fields : list Field :=
  [ etsyDiscount; shipping; vat; normalMultiplier; ooakMultiplier;
    etsyMarkupProfit; hourlyRate; rarity ].

(** The key of a field in the state object and in the posted form. *)
Definition name (f : Field) : string :=
  match f with
  | etsyDiscount => "etsyDiscount"
  | shipping => "shipping"
  | vat => "vat"
  | normalMultiplier => "normalMultiplier"
  | ooakMultiplier => "ooakMultiplier"
  | etsyMarkupProfit => "etsyMarkupProfit"
  | hourlyRate => "hourlyRate"
  | rarity => "rarity"
  end.

(** [defaults.<field>] *)
Definition column (f : Field) (row : MetafieldDefaults.t) : option string :=
  match f with
  | etsyDiscount => MetafieldDefaults.etsyDiscount row
  | shipping => MetafieldDefaults.shipping row
  | vat => MetafieldDefaults.vat row
  | normalMultiplier => MetafieldDefaults.normalMultiplier row
  | ooakMultiplier => MetafieldDefaults.ooakMultiplier row
  | etsyMarkupProfit => MetafieldDefaults.etsyMarkupProfit row
  | hourlyRate => MetafieldDefaults.hourlyRate row
  | rarity => MetafieldDefaults.rarity row
  end.

Definition Field_eqb (f g : Field) : bool := (name f =? name g)%string.

(** The state object of the form: a string under each of the eight keys. *)
Definition State := Field -> string.

(** [defaults?.<field> || ""] *)
Definition orEmpty (defaults : option MetafieldDefaults.t) (f : Field)
  : string :=
  match defaults with
  | Some row =>
      match column f row with
      | Some s => s
      | None => ""
      end
  | None => ""
  end.

(** The initial state of [useState]. *)
Definition initial (defaults : option MetafieldDefaults.t) : State :=
  fun f => orEmpty defaults f.

(** [handleChange(field, value)]: [{ ...prev, [field]: value }] *)
Definition handleChange (field : Field) (value : string) (prev : State)
  : State :=
  fun f => if Field_eqb f field then value else prev f.

(** The entries of a [FormData], in the order of their [append]. *)
Definition Entries := list (string * string).

(** [handleSubmit]: the keys of the state with a truthy value are appended
    to the form that is posted. *)
Definition handleSubmit (formData : State) : Entries :=
  List.flat_map
    (fun key =>
       if truthy (Some (formData key)) then [(name key, formData key)]
       else [])
    fields.

(** [formData.get(name)]: the first entry of that name, or [null]. *)
Definition get (entries : Entries) : Settings.FormData :=
  fun name =>
    match List.find (fun e => (fst e =? name)%string) entries with
    | Some e => Some (snd e)
    | None => None
    end.

(** The row that is stored when the form is submitted in a state. *)
Definition submitted (shop : string) (formData : State)
  : MetafieldDefaults.t :=
  Settings.data shop (get (handleSubmit formData)).

End Page.

(** ** Further deliveries *)

Module Cases.

(** An environment made of constant answers. *)
Definition answering (webhook : Error + Webhook)
    (session : Error + option Session)
    (defaults : Error + option MetafieldDefaults.t)
    (query : Error + option ProductData)
    (mutation : Error + option SetResult) : Env :=
  {| authenticate_webhook := fun _ => webhook;
     sessionStorage_loadSession := fun _ => session;
     prisma_findUnique := fun _ => defaults;
     query_json := fun _ _ _ => query;
     mutation_json := fun _ _ _ => mutation |}.

Definition accepted : Error + option SetResult :=
  inr (Some {| userErrors := Some []; errors := false |}).

Definition rejected : Error + option SetResult :=
  inr (Some {| userErrors :=
                 Some [ {| field := ["metafields"; "0"; "value"];
                           message := "Value must be a decimal" |} ];
               errors := true |}).

Definition item (nodes : list Node.t) : Error + option ProductData :=
  inr (Some {| edges := Some nodes |}).

(** The notification is not authentic. *)
Definition env_unauthenticated : Env :=
  answering (inl (Rejection "401")) (inr (Some Examples.the_session))
    (inr (Some Examples.defaults_A)) (item Examples.item_A) accepted.

(** The shop has no offline session. *)
Definition env_no_session : Env :=
  answering (inr Examples.the_webhook) (inr None)
    (inr (Some Examples.defaults_A)) (item Examples.item_A) accepted.

(** The query of the metafields fails in transport. *)
Definition env_query_fails : Env :=
  answering (inr Examples.the_webhook) (inr (Some Examples.the_session))
    (inr (Some Examples.defaults_A)) (inl (Rejection "fetch failed"))
    accepted.

(** The platform rejects the written values. *)
Definition env_rejecting : Env :=
  answering (inr Examples.the_webhook) (inr (Some Examples.the_session))
    (inr (Some Examples.defaults_A)) (item Examples.item_A) rejected.

(** The defaults of Vector A with an hourly rate that is no number. *)
Definition defaults_bad_rate : MetafieldDefaults.t :=
  {| MetafieldDefaults.shop := "demo.myshopify.com";
     MetafieldDefaults.etsyDiscount := Some "10";
     MetafieldDefaults.shipping := Some "5";
     MetafieldDefaults.vat := Some "21";
     MetafieldDefaults.normalMultiplier := Some "1.2";
     MetafieldDefaults.ooakMultiplier := None;
     MetafieldDefaults.etsyMarkupProfit := Some "20";
     MetafieldDefaults.hourlyRate := Some "fifteen";
     MetafieldDefaults.rarity := None |}.

(** The admin session of the demo shop. *)
Definition admin : string -> Error + string :=
  fun _ => inr "demo.myshopify.com".

(** The form with a tax of 21 percent and the rarity OOAK typed in. *)
Definition typed : Page.State :=
  Page.handleChange Page.rarity "OOAK"
    (Page.handleChange Page.vat "21" (Page.initial None)).

End Cases.

(** The remote and database calls of a trace, without the console. *)
Definition calls (tr : Trace) : list Event :=
  List.filter
    (fun ev => match ev with Console _ => false | _ => true end) tr.

(** The console messages of a trace. *)
Definition messages (tr : Trace) : list Message :=
  List.flat_map
    (fun ev => match ev with Console m => [m] | _ => [] end) tr.

(** A finite number of value [q]. *)
Definition has_value (x : number) (q : Q) : Prop :=
  exists q', x = Fin q' /\ q' == q.

(** The configuration values of a calculation, under short names. *)
Definition configured (c : Update.Calculated)
    (rate markup multiplier shipping vat : number) : Prop :=
  Update.hourlyRate c = rate /\ Update.markup c = markup /\
  Update.rarityMultiplier c = multiplier /\
  Update.shipping c = shipping /\ Update.vat c = vat.

(** The constant of the update calculation that is read from a field of
    the defaults; the default rarity is not read. *)
Definition constant_of (f : Page.Field) (c : Update.Calculated)
  : option number :=
  match f with
  | Page.etsyDiscount => Some (Update.discount c)
  | Page.shipping => Some (Update.shipping c)
  | Page.vat => Some (Update.vat c)
  | Page.normalMultiplier => Some (Update.normalMultiplier c)
  | Page.ooakMultiplier => Some (Update.ooakMultiplier c)
  | Page.etsyMarkupProfit => Some (Update.markup c)
  | Page.hourlyRate => Some (Update.hourlyRate c)
  | Page.rarity => None
  end.

(** The fallback of that constant. *)
Definition fallback_of (f : Page.Field) : number :=
  match f with
  | Page.normalMultiplier => lit 1.2
  | Page.ooakMultiplier => lit 2
  | _ => lit 0
  end.

(** A row of the defaults holds no empty string. *)
Definition normalized (row : MetafieldDefaults.t) : Prop :=
  forall f, Page.column f row <> Some "".

(** The message that the update handler logs for the answer to its
    mutation. *)
Definition update_verdict (answer : Error + option SetResult) : Message :=
  match answer with
  | inl e => ErrorInWebhook e
  | inr (Some {| userErrors := Some (e :: errs) |}) =>
      ErrorSettingMetafields (e :: errs)
  | inr _ => MetafieldsWritten
  end.

(** The messages that the create handler logs for the answer to its
    mutation. *)
Definition create_verdict (answer : Error + option SetResult)
  : list Message :=
  match answer with
  | inl e => [ErrorInWebhook e]
  | inr None => [ErrorInWebhook TypeError]
  | inr (Some r) =>
      (match userErrors r with
       | Some (e :: errs) => [ErrorSettingMetafields (e :: errs)]
       | _ => [MetafieldsWritten]
       end ++ (if errors r then [GraphQLErrors] else []))%list
  end.

(** * Properties *)

Arguments Update.calculations : simpl never.
Arguments Update.metafieldsToSet : simpl never.
Arguments Create.metafields_of : simpl never.
Arguments Create.metafieldsSetInput : simpl never.
Arguments parseFloat : simpl never.
Arguments toFixed2 : simpl never.
Arguments productGid_of : simpl never.
Arguments String.append : simpl never.
Arguments add : simpl never.
Arguments sub : simpl never.
Arguments mul : simpl never.
Arguments div : simpl never.
Arguments gt : simpl never.
Arguments lit : simpl never.

Ltac exec :=
  unfold run, Update.action, Update.guarded, Create.action, Create.guarded,
    bind, await, try_catch, console, emit, ret, throw.

(** Case analysis on an innermost scrutinee of the goal. *)
Ltac split_match :=
  repeat match goal with
         | |- context [match ?x with _ => _ end] =>
             match x with
             | context [match _ with _ => _ end] => fail 1
             | _ => destruct x eqn:?; cbn
             end
         end.

(** ** Outcomes of the guarded blocks *)

Lemma update_guarded_outcome (nts : Q -> string) (env : Env) (w : Webhook)
    (tr : Trace) :
  match fst (Update.guarded nts env w tr) with
  | Normal (Some response) => response = {| body := None; status := 200%N |}
  | _ => True
  end.
Proof.
  unfold Update.guarded, bind, await, console, emit, ret, throw,
    new_Response.
  split_match; trivial.
Qed.

Lemma create_guarded_outcome (env : Env) (w : Webhook) (tr : Trace) :
  match fst (Create.guarded env w tr) with
  | Normal (Some response) => response = {| body := None; status := 200%N |}
  | _ => True
  end.
Proof.
  unfold Create.guarded, bind, await, console, emit, ret, throw,
    new_Response.
  split_match; trivial.
Qed.

(** Whatever the guarded block does, the action acknowledges. *)
Lemma action_acknowledges (guarded : Async (option Response)) :
  (forall tr,
      match fst (guarded tr) with
      | Normal (Some response) =>
          response = {| body := None; status := 200%N |}
      | _ => True
      end) ->
  forall tr,
    fst ((r <- try_catch guarded
                 (fun error => console (ErrorInWebhook error) ;;; ret None) ;;
          match r with
          | Some response => ret response
          | None => ret (new_Response None 200%N)
          end) tr)
    = Normal {| body := None; status := 200%N |}.
Proof.
  intros Hg tr. specialize (Hg tr).
  unfold bind, try_catch, console, emit, ret, new_Response.
  destruct (guarded tr) as [[[response|]|e] tr']; cbn in *;
    subst; reflexivity.
Qed.

Lemma update_acknowledged (nts : Q -> string) (env : Env) (request : string)
    (w : Webhook) :
  authenticate_webhook env request = inr w ->
  acknowledged (run (Update.action nts env request)).
Proof.
  intros Hw. unfold acknowledged, run, Update.action.
  unfold bind at 1, await. rewrite Hw.
  apply action_acknowledges. intros tr. apply update_guarded_outcome.
Qed.

Lemma create_acknowledged (env : Env) (request : string) (w : Webhook) :
  authenticate_webhook env request = inr w ->
  acknowledged (run (Create.action env request)).
Proof.
  intros Hw. unfold acknowledged, run, Create.action.
  unfold bind at 1, await. rewrite Hw.
  apply action_acknowledges. intros tr. apply create_guarded_outcome.
Qed.

(** ** The writes of a delivery *)

(** The update handler sends one mutation, with the four derived
    attributes, exactly when both inputs are on the item and the shop has a
    defaults row. *)
Lemma update_writes (nts : Q -> string) (env : Env) (request : string)
    (w : Webhook) :
  authenticate_webhook env request = inr w ->
  writes (snd (run (Update.action nts env request))) =
  match attribute "material_costs" (fetched env w),
        attribute "hours_worked" (fetched env w),
        prisma_findUnique env (shop w) with
  | Some mc, Some hw, inr (Some defaults) =>
      [ Update.metafieldsToSet nts (productGid_of (id (payload w)))
          (Update.calculations (parseFloat (Node.value mc))
             (parseFloat (Node.value hw))
             (Update.productRarity_of (attribute "rarity" (fetched env w)))
             defaults) ]
  | _, _, _ => []
  end.
Proof.
  intros Hw. exec. rewrite Hw. unfold fetched, attribute, edges_or_empty.
  cbn. split_match; reflexivity.
Qed.

(** The create handler sends one mutation, with the seeded attributes,
    exactly when the shop has a session and a defaults row with a value. *)
Lemma create_writes (env : Env) (request : string) (w : Webhook) :
  authenticate_webhook env request = inr w ->
  writes (snd (run (Create.action env request))) =
  match sessionStorage_loadSession env ("offline_" ++ shop w),
        prisma_findUnique env (shop w) with
  | inr (Some _), inr (Some defaults) =>
      match Create.metafields_of defaults with
      | [] => []
      | metafields =>
          [ Create.metafieldsSetInput (productGid_of (id (payload w)))
              metafields ]
      end
  | _, _ => []
  end.
Proof.
  intros Hw. exec. rewrite Hw. cbn.
  split_match; try reflexivity; cbn in *; discriminate.
Qed.

(** The create handler never queries the item. *)
Lemma create_reads (env : Env) (request : string) :
  reads (snd (run (Create.action env request))) = [].
Proof.
  exec. cbn. split_match; reflexivity.
Qed.

(** C1. Every notification, item-created or item-updated, whose
    authentication hands the handler a webhook is answered with the fixed
    success acknowledgement (status 200, no body): on the normal path, on
    every short-circuit, after a remote rejection and after a fault thrown
    inside the guarded block. *)
Theorem always_acknowledged :
  forall (nts : Q -> string) (env : Env) (request : string) (w : Webhook),
    authenticate_webhook env request = inr w ->
    acknowledged (run (Update.action nts env request)) /\
    acknowledged (run (Create.action env request)).
Proof.
  intros nts env request w Hw. split.
  - exact (update_acknowledged nts env request w Hw).
  - exact (create_acknowledged env request w Hw).
Qed.

Lemma always_acknowledged_witness :
  let env := Examples.env_write_fails Examples.item_A
               (Some Examples.defaults_A) in
  authenticate_webhook env "notification" = inr Examples.the_webhook /\
  acknowledged
    (run (Update.action Examples.no_exponent_notation env "notification")) /\
  acknowledged (run (Create.action env "notification")).
Proof.
  split; [reflexivity|].
  apply (always_acknowledged Examples.no_exponent_notation
           (Examples.env_write_fails Examples.item_A
              (Some Examples.defaults_A))
           "notification" Examples.the_webhook).
  reflexivity.
Defined.

(** C5. On an update notification, when the item has no [material_costs]
    attribute or no [hours_worked] attribute, no [metafieldsSet] mutation
    is sent and the notification is still acknowledged. *)
Theorem missing_input_short_circuits :
  forall (nts : Q -> string) (env : Env) (request : string) (w : Webhook),
    authenticate_webhook env request = inr w ->
    attribute "material_costs" (fetched env w) = None \/
    attribute "hours_worked" (fetched env w) = None ->
    no_write (run (Update.action nts env request)) /\
    acknowledged (run (Update.action nts env request)).
Proof.
  intros nts env request w Hw Hmissing. split.
  - unfold no_write. rewrite (update_writes nts env request w Hw).
    destruct Hmissing as [H|H]; rewrite H.
    + reflexivity.
    + destruct (attribute "material_costs" (fetched env w)); reflexivity.
  - exact (update_acknowledged nts env request w Hw).
Qed.

Lemma missing_input_short_circuits_witness :
  let env := Examples.env_with [Examples.node "hours_worked" "2"]
               (Some Examples.defaults_A) in
  no_write
    (run (Update.action Examples.no_exponent_notation env "notification")) /\
  acknowledged
    (run (Update.action Examples.no_exponent_notation env "notification")).
Proof.
  apply (missing_input_short_circuits Examples.no_exponent_notation
           (Examples.env_with [Examples.node "hours_worked" "2"]
              (Some Examples.defaults_A))
           "notification" Examples.the_webhook).
  - reflexivity.
  - left. reflexivity.
Defined.

(** ** Fallbacks of the defaults *)

Lemma parseOr_falsy (v : option string) (otherwise : number) :
  truthy v = false -> Update.parseOr v otherwise = otherwise.
Proof.
  intros H. unfold Update.parseOr. rewrite H. destruct v; reflexivity.
Qed.

Lemma all_absent_all_fallback (materialCosts hoursWorked : number)
    (productRarity : string) (defaults : MetafieldDefaults.t) :
  all_absent defaults ->
  all_fallback
    (Update.calculations materialCosts hoursWorked productRarity defaults).
Proof.
  intros (Hd & Hs & Hv & Hm & Hh & Hn & Ho).
  unfold all_fallback, Update.calculations; cbn.
  rewrite !parseOr_falsy by assumption. repeat split.
Qed.

(** C3, as the code has it. On an update notification, when the shop has
    no defaults row, the handler short-circuits as the create handler
    does: no mutation is sent and the notification is acknowledged.  The
    fallback values come into play when the row exists and its values are
    absent: then, with both inputs on the item, the four derived
    attributes are calculated from the fallbacks alone and written. *)
Theorem update_without_defaults :
  forall (nts : Q -> string) (env : Env) (request : string) (w : Webhook),
    authenticate_webhook env request = inr w ->
    (prisma_findUnique env (shop w) = inr None ->
     no_write (run (Update.action nts env request)) /\
     acknowledged (run (Update.action nts env request)) /\
     no_write (run (Create.action env request)) /\
     acknowledged (run (Create.action env request))) /\
    (forall (mc hw : Node.t) (defaults : MetafieldDefaults.t),
        attribute "material_costs" (fetched env w) = Some mc ->
        attribute "hours_worked" (fetched env w) = Some hw ->
        prisma_findUnique env (shop w) = inr (Some defaults) ->
        all_absent defaults ->
        let c :=
          Update.calculations (parseFloat (Node.value mc))
            (parseFloat (Node.value hw))
            (Update.productRarity_of (attribute "rarity" (fetched env w)))
            defaults in
        all_fallback c /\
        writes (snd (run (Update.action nts env request))) =
        [ Update.metafieldsToSet nts (productGid_of (id (payload w))) c ] /\
        List.map Input.key
          (Update.metafieldsToSet nts (productGid_of (id (payload w))) c) =
        derived_keys).
Proof.
  intros nts env request w Hw. split.
  - intros Hnone. repeat split.
    + unfold no_write. rewrite (update_writes nts env request w Hw), Hnone.
      destruct (attribute "material_costs" (fetched env w));
        destruct (attribute "hours_worked" (fetched env w)); reflexivity.
    + exact (update_acknowledged nts env request w Hw).
    + unfold no_write. rewrite (create_writes env request w Hw), Hnone.
      destruct (sessionStorage_loadSession env ("offline_" ++ shop w))
        as [e|[s|]]; reflexivity.
    + exact (create_acknowledged env request w Hw).
  - intros mc hw defaults Hmc Hhw Hd Habsent c. repeat split.
    1-7: apply (all_absent_all_fallback _ _ _ _ Habsent).
    + rewrite (update_writes nts env request w Hw), Hmc, Hhw, Hd.
      reflexivity.
Qed.

Lemma update_without_defaults_witness :
  (let env := Examples.env_with Examples.item_A None in
   no_write
     (run (Update.action Examples.no_exponent_notation env "notification")) /\
   acknowledged
     (run (Update.action Examples.no_exponent_notation env "notification")) /\
   no_write (run (Create.action env "notification")) /\
   acknowledged (run (Create.action env "notification"))) /\
  writes
    (snd (run (Update.action Examples.no_exponent_notation
                 (Examples.env_with Examples.item_A
                    (Some Examples.defaults_empty))
                 "notification")))
  = [ Examples.derived "10.00" "13.34" "1.34" "12.60" ].
Proof.
  split.
  - apply (update_without_defaults Examples.no_exponent_notation
             (Examples.env_with Examples.item_A None)
             "notification" Examples.the_webhook);
      reflexivity.
  - pose proof
      (proj2 (update_without_defaults Examples.no_exponent_notation
                (Examples.env_with Examples.item_A
                   (Some Examples.defaults_empty))
                "notification" Examples.the_webhook eq_refl)
         (Examples.node "material_costs" "10")
         (Examples.node "hours_worked" "2") Examples.defaults_empty
         eq_refl eq_refl eq_refl
         ltac:(repeat split)) as H.
    cbv zeta in H. destruct H as (_ & H & _).
    rewrite H. vm_compute. reflexivity.
Defined.

(** C3, as the claim has it, fails: with both inputs on the item and no
    defaults row, the update handler sends no mutation at all. *)
Lemma update_without_defaults_counterexample :
  let env := Examples.env_with Examples.item_A None in
  attribute "material_costs" (fetched env Examples.the_webhook)
  = Some (Examples.node "material_costs" "10") /\
  attribute "hours_worked" (fetched env Examples.the_webhook)
  = Some (Examples.node "hours_worked" "2") /\
  prisma_findUnique env "demo.myshopify.com" = inr None /\
  run (Update.action Examples.no_exponent_notation env "notification") =
  (Normal {| body := None; status := 200%N |},
   [ LoadSession "offline_demo.myshopify.com";
     Fetch "demo.myshopify.com" "shpat_demo"
       (GetProductMetafields "gid://shopify/Product/42");
     FindUnique "demo.myshopify.com";
     Console NoDefaultsFound ]).
Proof.
  repeat split.
Qed.

(** ** Not-a-number in the calculation *)

Lemma add_NaN_l (x : number) : (NaN + x)%js = NaN.
Proof. reflexivity. Qed.

Lemma add_NaN_r (x : number) : (x + NaN)%js = NaN.
Proof. destruct x; reflexivity. Qed.

Lemma mul_NaN_l (x : number) : (NaN * x)%js = NaN.
Proof. reflexivity. Qed.

Lemma mul_NaN_r (x : number) : (x * NaN)%js = NaN.
Proof. destruct x; reflexivity. Qed.

Lemma div_NaN_l (x : number) : (NaN / x)%js = NaN.
Proof. reflexivity. Qed.

Lemma isNaN_eq (x : number) : isNaN x = true -> x = NaN.
Proof. destruct x; [reflexivity | discriminate | discriminate]. Qed.

Lemma calculations_NaN (materialCosts hoursWorked : number)
    (productRarity : string) (defaults : MetafieldDefaults.t) :
  isNaN materialCosts = true \/ isNaN hoursWorked = true ->
  let c :=
    Update.calculations materialCosts hoursWorked productRarity defaults in
  Update.totalCost c = NaN /\ Update.finalEtsyPrice c = NaN /\
  Update.etsyFees c = NaN /\ Update.marketPrice c = NaN.
Proof.
  intros H.
  assert (Hsum : (materialCosts +
                  hoursWorked *
                  Update.parseOr (MetafieldDefaults.hourlyRate defaults)
                    (lit 0))%js = NaN).
  { destruct H as [H|H]; apply isNaN_eq in H; subst.
    - apply add_NaN_l.
    - rewrite mul_NaN_l. apply add_NaN_r. }
  unfold Update.calculations; cbn. rewrite Hsum.
  repeat (rewrite ?mul_NaN_l, ?add_NaN_l, ?div_NaN_l).
  repeat split.
  destruct (_ > _)%js; rewrite ?div_NaN_l; reflexivity.
Qed.

(** C4, as the code has it. The calculation never fails, on malformed
    input either: there is no not-a-number check.  With both inputs on the
    item and a defaults row, whatever the strings are, the four derived
    attributes are calculated and written and the notification is
    acknowledged; an input that parses to not-a-number makes all four
    values not-a-number, which are written as ["NaN"]. *)
Theorem calculation_never_fails :
  forall (nts : Q -> string) (env : Env) (request : string) (w : Webhook)
         (mc hw : Node.t) (defaults : MetafieldDefaults.t),
    authenticate_webhook env request = inr w ->
    attribute "material_costs" (fetched env w) = Some mc ->
    attribute "hours_worked" (fetched env w) = Some hw ->
    prisma_findUnique env (shop w) = inr (Some defaults) ->
    let c :=
      Update.calculations (parseFloat (Node.value mc))
        (parseFloat (Node.value hw))
        (Update.productRarity_of (attribute "rarity" (fetched env w)))
        defaults in
    let metafieldsToSet :=
      Update.metafieldsToSet nts (productGid_of (id (payload w))) c in
    writes (snd (run (Update.action nts env request))) = [metafieldsToSet] /\
    List.map Input.key metafieldsToSet = derived_keys /\
    acknowledged (run (Update.action nts env request)) /\
    (isNaN (parseFloat (Node.value mc)) = true \/
     isNaN (parseFloat (Node.value hw)) = true ->
     List.map Input.value metafieldsToSet = ["NaN"; "NaN"; "NaN"; "NaN"]).
Proof.
  intros nts env request w mc hw defaults Hw Hmc Hhw Hd c metafieldsToSet.
  repeat split.
  - rewrite (update_writes nts env request w Hw), Hmc, Hhw, Hd.
    reflexivity.
  - exact (update_acknowledged nts env request w Hw).
  - intros Hnan.
    pose proof (calculations_NaN _ _
                  (Update.productRarity_of
                     (attribute "rarity" (fetched env w)))
                  defaults Hnan) as Hc.
    cbv zeta in Hc. fold c in Hc. destruct Hc as (Ht & Hp & Hf & Hm).
    unfold metafieldsToSet, Update.metafieldsToSet.
    cbn [List.map Input.value]. rewrite Ht, Hp, Hf, Hm. reflexivity.
Qed.

Lemma calculation_never_fails_witness :
  let env := Examples.env_with Examples.item_A (Some Examples.defaults_A) in
  writes
    (snd (run (Update.action Examples.no_exponent_notation env
                 "notification")))
  = [ Examples.derived "40.00" "92.38" "7.40" "50.40" ].
Proof.
  pose proof
    (calculation_never_fails Examples.no_exponent_notation
       (Examples.env_with Examples.item_A (Some Examples.defaults_A))
       "notification" Examples.the_webhook
       (Examples.node "material_costs" "10")
       (Examples.node "hours_worked" "2") Examples.defaults_A
       eq_refl eq_refl eq_refl eq_refl) as H.
  cbv zeta in H. destruct H as [H _]. intros env. subst env.
  rewrite H. vm_compute. reflexivity.
Defined.

(** C4, as the claim has it, fails: a material cost that parses to
    not-a-number does not make the calculation fail; the four attributes
    are calculated and written. *)
Lemma calculation_never_fails_counterexample :
  let env :=
    Examples.env_with
      [ Examples.node "material_costs" "abc";
        Examples.node "hours_worked" "2" ]
      (Some Examples.defaults_A) in
  parseFloat "abc" = NaN /\
  run (Update.action Examples.no_exponent_notation env "notification") =
  (Normal {| body := None; status := 200%N |},
   [ LoadSession "offline_demo.myshopify.com";
     Fetch "demo.myshopify.com" "shpat_demo"
       (GetProductMetafields "gid://shopify/Product/42");
     FindUnique "demo.myshopify.com";
     Fetch "demo.myshopify.com" "shpat_demo"
       (MetafieldsSet (Examples.derived "NaN" "NaN" "NaN" "NaN"));
     Console MetafieldsWritten ]).
Proof.
  split; vm_compute; reflexivity.
Qed.

(** C6. For every field of the defaults that is absent where the update
    calculation uses it ([null], or the empty string that the test of the
    source treats alike), the value applied is the fallback: discount 0,
    shipping 0, tax 0, markup 0, hourly rate 0, normal multiplier 1.2,
    one-of-a-kind multiplier 2. *)
Theorem absent_field_fallbacks :
  forall (materialCosts hoursWorked : number) (productRarity : string)
         (defaults : MetafieldDefaults.t),
    let c :=
      Update.calculations materialCosts hoursWorked productRarity defaults in
    (truthy (MetafieldDefaults.etsyDiscount defaults) = false ->
     Update.discount c = lit 0) /\
    (truthy (MetafieldDefaults.shipping defaults) = false ->
     Update.shipping c = lit 0) /\
    (truthy (MetafieldDefaults.vat defaults) = false ->
     Update.vat c = lit 0) /\
    (truthy (MetafieldDefaults.etsyMarkupProfit defaults) = false ->
     Update.markup c = lit 0) /\
    (truthy (MetafieldDefaults.hourlyRate defaults) = false ->
     Update.hourlyRate c = lit 0) /\
    (truthy (MetafieldDefaults.normalMultiplier defaults) = false ->
     Update.normalMultiplier c = lit 1.2) /\
    (truthy (MetafieldDefaults.ooakMultiplier defaults) = false ->
     Update.ooakMultiplier c = lit 2) /\
    lit 0 = Fin 0 /\ lit 1.2 = Fin (6 # 5) /\ lit 2 = Fin 2 /\
    truthy None = false /\ truthy (Some "") = false.
Proof.
  intros materialCosts hoursWorked productRarity defaults c.
  unfold c, Update.calculations; cbn.
  repeat split; intros H; apply parseOr_falsy; exact H.
Qed.

Lemma absent_field_fallbacks_witness :
  let c :=
    Update.calculations (Fin 10) (Fin 2) "NORMAL" Examples.defaults_empty in
  Update.discount c = Fin 0 /\ Update.shipping c = Fin 0 /\
  Update.vat c = Fin 0 /\ Update.markup c = Fin 0 /\
  Update.hourlyRate c = Fin 0 /\ Update.normalMultiplier c = Fin (6 # 5) /\
  Update.ooakMultiplier c = Fin 2.
Proof.
  pose proof (absent_field_fallbacks (Fin 10) (Fin 2) "NORMAL"
                Examples.defaults_empty) as H.
  cbv zeta in H.
  destruct H as (Hd & Hs & Hv & Hm & Hh & Hn & Ho & _).
  intros c. subst c.
  rewrite (Hd eq_refl), (Hs eq_refl), (Hv eq_refl), (Hm eq_refl),
    (Hh eq_refl), (Hn eq_refl), (Ho eq_refl).
  repeat split.
Defined.

(** ** Upper case of the rarity label *)

Lemma upper_char_O (c : ascii) :
  upper_char c = "O"%char <-> c = "o"%char \/ c = "O"%char.
Proof.
  destruct c as [[] [] [] [] [] [] [] []]; vm_compute;
    (split; [intros H; try discriminate H; auto
            | intros [H|H]; try discriminate H; reflexivity]).
Qed.

Lemma upper_char_A (c : ascii) :
  upper_char c = "A"%char <-> c = "a"%char \/ c = "A"%char.
Proof.
  destruct c as [[] [] [] [] [] [] [] []]; vm_compute;
    (split; [intros H; try discriminate H; auto
            | intros [H|H]; try discriminate H; reflexivity]).
Qed.

Lemma upper_char_K (c : ascii) :
  upper_char c = "K"%char <-> c = "k"%char \/ c = "K"%char.
Proof.
  destruct c as [[] [] [] [] [] [] [] []]; vm_compute;
    (split; [intros H; try discriminate H; auto
            | intros [H|H]; try discriminate H; reflexivity]).
Qed.

(** The strings whose upper-case form is ["OOAK"] are the sixteen
    spellings of the four letters in either case. *)
Lemma toUpperCase_OOAK (s : string) :
  toUpperCase s = "OOAK" <->
  exists c1 c2 c3 c4 : ascii,
    s = String c1 (String c2 (String c3 (String c4 EmptyString))) /\
    (c1 = "o" \/ c1 = "O")%char /\ (c2 = "o" \/ c2 = "O")%char /\
    (c3 = "a" \/ c3 = "A")%char /\ (c4 = "k" \/ c4 = "K")%char.
Proof.
  split.
  - intros H.
    destruct s as [|c1 [|c2 [|c3 [|c4 [|c5 s]]]]]; try discriminate H.
    cbn in H. injection H as H1 H2 H3 H4.
    exists c1, c2, c3, c4. split; [reflexivity|].
    rewrite <- !upper_char_O, <- upper_char_A, <- upper_char_K. auto.
  - intros (c1 & c2 & c3 & c4 & -> & H1 & H2 & H3 & H4).
    apply upper_char_O in H1, H2. apply upper_char_A in H3.
    apply upper_char_K in H4. cbn. rewrite H1, H2, H3, H4. reflexivity.
Qed.



(** ** The attributes seeded by the create handler *)

Lemma push_if_pushed (v : option string) (key type : string)
    (metafields : list Create.Mf.t) :
  Create.push_if v key type metafields
  = (metafields ++ pushed v key type)%list.
Proof.
  unfold Create.push_if, pushed, truthy.
  destruct v as [s|]; [destruct (s =? "")%string|]; cbn;
    rewrite ?app_nil_r; reflexivity.
Qed.

Lemma metafields_of_seeded (defaults : MetafieldDefaults.t) :
  Create.metafields_of defaults
  = List.flat_map (fun fkt => pushed (fst (fst fkt) defaults)
                                (snd (fst fkt)) (snd fkt))
      seeded.
Proof.
  unfold Create.metafields_of. rewrite !push_if_pushed. cbn.
  rewrite app_nil_r, <- !app_assoc. reflexivity.
Qed.

Lemma in_pushed (v : option string) (key type : string) (mf : Create.Mf.t) :
  In mf (pushed v key type) <->
  exists s, present v s /\
            mf = {| Create.Mf.namespace := "custom"; Create.Mf.key := key;
                    Create.Mf.value := s; Create.Mf.type := type |}.
Proof.
  unfold pushed, present. destruct v as [s|].
  - destruct (String.eqb_spec s "") as [->|Hs]; cbn.
    + split; [tauto|]. intros (s & (Hv & Hs) & _).
      injection Hv as <-. congruence.
    + split.
      * intros [<-|[]]. exists s. auto.
      * intros (s' & (Hv & _) & ->). injection Hv as <-. auto.
  - cbn. split; [tauto|]. intros (s & (Hv & _) & _). discriminate.
Qed.

Lemma settings_orNull (v : option string) (s : string) :
  Settings.orNull v = Some s -> s <> "".
Proof.
  unfold Settings.orNull, truthy. destruct v as [s'|]; [|discriminate].
  destruct (String.eqb_spec s' "") as [->|Hs]; cbn; [discriminate|].
  intros H. injection H as <-. exact Hs.
Qed.

Lemma written_inputs (productGid : string) (metafields : list Create.Mf.t)
    (i : Input.t) :
  (exists l,
      In l match metafields with
           | [] => []
           | mf :: rest =>
               [Create.metafieldsSetInput productGid (mf :: rest)]
           end /\ In i l) <->
  In i (Create.metafieldsSetInput productGid metafields).
Proof.
  destruct metafields as [|mf rest].
  - cbn. split; [intros (l & [] & _) | intros []].
  - split.
    + intros (l & [<-|[]] & Hi). exact Hi.
    + intros Hi. eexists. split; [left; reflexivity | exact Hi].
Qed.

Lemma seeded_inputs (productGid : string) (defaults : MetafieldDefaults.t)
    (i : Input.t) :
  In i (Create.metafieldsSetInput productGid
          (Create.metafields_of defaults)) <->
  exists f key type s,
    In (f, key, type) seeded /\ present (f defaults) s /\
    i = {| Input.ownerId := productGid; Input.namespace := "custom";
           Input.key := key; Input.value := s; Input.type := type |}.
Proof.
  unfold Create.metafieldsSetInput.
  rewrite in_map_iff, metafields_of_seeded. split.
  - intros (mf & <- & Hmf). apply in_flat_map in Hmf.
    destruct Hmf as ([[f key] type] & Hseed & Hmf). cbn in Hmf.
    apply in_pushed in Hmf. destruct Hmf as (s & Hs & ->).
    exists f, key, type, s. auto.
  - intros (f & key & type & s & Hseed & Hs & ->).
    exists {| Create.Mf.namespace := "custom"; Create.Mf.key := key;
              Create.Mf.value := s; Create.Mf.type := type |}.
    split; [reflexivity|]. apply in_flat_map.
    exists (f, key, type). split; [exact Hseed|]. cbn.
    apply in_pushed. exists s. auto.
Qed.

(** C8. On a created-item notification: without a defaults row the handler
    short-circuits and writes nothing; with one it writes, for every present
    field of the row and for those only, the corresponding attribute of the
    item with the stored string as it is.  The handler never queries the
    item, and none of its attributes is a derived one: no price is
    calculated on this path.  In a row stored by the settings action every
    field that is not [null] is present. *)
Theorem create_seeds_defaults :
  forall (env : Env) (request : string) (w : Webhook),
    authenticate_webhook env request = inr w ->
    let r := run (Create.action env request) in
    let productGid := productGid_of (id (payload w)) in
    (prisma_findUnique env (shop w) = inr None ->
     no_write r /\ acknowledged r) /\
    (forall (session : Session) (defaults : MetafieldDefaults.t),
        sessionStorage_loadSession env ("offline_" ++ shop w)
        = inr (Some session) ->
        prisma_findUnique env (shop w) = inr (Some defaults) ->
        forall i : Input.t,
          (exists l, In l (writes (snd r)) /\ In i l) <->
          (exists f key type s,
              In (f, key, type) seeded /\ present (f defaults) s /\
              i = {| Input.ownerId := productGid;
                     Input.namespace := "custom"; Input.key := key;
                     Input.value := s; Input.type := type |})) /\
    (forall l i, In l (writes (snd r)) -> In i l ->
                 ~ In (Input.key i) derived_keys) /\
    (List.length (writes (snd r)) <= 1)%nat /\
    reads (snd r) = [] /\
    acknowledged r /\
    (forall (shop : string) (formData : Settings.FormData) f key type s,
        In (f, key, type) seeded ->
        f (Settings.data shop formData) = Some s ->
        present (f (Settings.data shop formData)) s).
Proof.
  intros env request w Hw r productGid.
  pose proof (create_writes env request w Hw) as Hwr. fold r in Hwr.
  assert (Hin :
    forall (session : Session) (defaults : MetafieldDefaults.t),
      sessionStorage_loadSession env ("offline_" ++ shop w)
      = inr (Some session) ->
      prisma_findUnique env (shop w) = inr (Some defaults) ->
      forall i : Input.t,
        (exists l, In l (writes (snd r)) /\ In i l) <->
        (exists f key type s,
            In (f, key, type) seeded /\ present (f defaults) s /\
            i = {| Input.ownerId := productGid;
                   Input.namespace := "custom"; Input.key := key;
                   Input.value := s; Input.type := type |})).
  { intros session defaults Hs Hd i. rewrite Hwr, Hs, Hd.
    etransitivity; [apply written_inputs | apply seeded_inputs]. }
  split; [|split; [exact Hin|]]; [|split; [|split; [|split; [|split]]]].
  - intros Hnone. split.
    + unfold no_write. rewrite Hwr, Hnone.
      destruct (sessionStorage_loadSession env ("offline_" ++ shop w))
        as [e|[s|]]; reflexivity.
    + exact (create_acknowledged env request w Hw).
  - intros l i Hl Hi Hkey.
    destruct (sessionStorage_loadSession env ("offline_" ++ shop w))
      as [e|[session|]] eqn:Hs;
      [rewrite Hwr in Hl; destruct Hl | | rewrite Hwr in Hl; destruct Hl].
    destruct (prisma_findUnique env (shop w)) as [e|[defaults|]] eqn:Hd;
      [rewrite Hwr in Hl; destruct Hl | | rewrite Hwr in Hl; destruct Hl].
    destruct (proj1 (Hin session defaults eq_refl eq_refl i))
      as (f & key & type & s & Hseed & _ & ->).
    { exists l. split; assumption. }
    cbn in Hseed, Hkey.
    repeat (destruct Hseed as [Hseed|Hseed];
            [injection Hseed as <- <- <-; cbn in Hkey; intuition discriminate
            |]).
    destruct Hseed.
  - rewrite Hwr.
    destruct (sessionStorage_loadSession env ("offline_" ++ shop w))
      as [e|[session|]]; cbn; try lia.
    destruct (prisma_findUnique env (shop w)) as [e|[defaults|]];
      cbn; try lia.
    destruct (Create.metafields_of defaults); cbn; lia.
  - apply create_reads.
  - exact (create_acknowledged env request w Hw).
  - intros shop0 formData f key type s Hseed Hf.
    split; [exact Hf|].
    cbn in Hseed.
    repeat (destruct Hseed as [Hseed|Hseed];
            [injection Hseed as <- <- <-; cbn in Hf;
             exact (settings_orNull _ _ Hf)
            |]).
    destruct Hseed.
Qed.

Lemma create_seeds_defaults_witness :
  exists l,
    In l (writes
            (snd (run (Create.action
                         (Examples.env_with Examples.item_A
                            (Some Examples.defaults_A))
                         "notification")))) /\
    In {| Input.ownerId := "gid://shopify/Product/42";
          Input.namespace := "custom"; Input.key := "hourly_rate";
          Input.value := "15"; Input.type := "number_decimal" |} l.
Proof.
  pose proof (create_seeds_defaults
                (Examples.env_with Examples.item_A
                   (Some Examples.defaults_A))
                "notification" Examples.the_webhook eq_refl) as H.
  cbv zeta in H. destruct H as (_ & H & _).
  apply (H Examples.the_session Examples.defaults_A eq_refl eq_refl).
  exists MetafieldDefaults.hourlyRate, "hourly_rate", "number_decimal", "15".
  split; [cbn; tauto|].
  split; [split; [reflexivity | discriminate] | reflexivity].
Defined.

(** ** The pricing chain *)



(** ** The discount division *)

Lemma finalEtsyPrice_eq (materialCosts hoursWorked : number)
    (productRarity : string) (defaults : MetafieldDefaults.t) :
  let c :=
    Update.calculations materialCosts hoursWorked productRarity defaults in
  Update.finalEtsyPrice c =
  if (Update.discount c > lit 0)%js
  then (price_before_discount c / (lit 1 - Update.discount c / lit 100))%js
  else price_before_discount c.
Proof. reflexivity. Qed.

Lemma Qltb_true (a b : Q) : Qltb a b = true <-> a < b.
Proof.
  unfold Qltb. rewrite Qlt_alt. destruct (a ?= b); split; congruence.
Qed.

(** The divisor [1 - discount / 100] of a finite discount. *)
Lemma divisor_Fin (q : Q) :
  exists z, (lit 1 - Fin q / lit 100)%js = Fin z /\ z == 1 - q / 100.
Proof.
  exists (Qred (1 + Qred (- Qred (q / 100)))). split.
  - reflexivity.
  - rewrite !Qred_correct. unfold Qminus. reflexivity.
Qed.

Lemma div_by_zero_not_finite (x : number) (z : Q) :
  z == 0 -> isFinite (x / Fin z)%js = false.
Proof.
  intros Hz.
  assert (Hc : (z ?= 0) = Eq) by (apply Qeq_alt; exact Hz).
  unfold div. destruct x as [|a|p]; try reflexivity.
  rewrite Hc. destruct (p ?= 0); reflexivity.
Qed.

Lemma div_by_negative (p z : Q) :
  z < 0 ->
  exists s, (Fin p / Fin z)%js = Fin s /\ s == p / z.
Proof.
  intros Hz. exists (Qred (p / z)). split.
  - assert (Hc : (z ?= 0) = Lt) by (apply Qlt_alt; exact Hz).
    unfold div. rewrite Hc. reflexivity.
  - apply Qred_correct.
Qed.

Lemma Qdiv_neg_sign (p z : Q) :
  z < 0 -> (0 < p -> p / z < 0) /\ (p <= 0 -> 0 <= p / z).
Proof.
  intros Hz.
  assert (Hnz : ~ z == 0) by (intros E; rewrite E in Hz; discriminate Hz).
  assert (Hinv : 0 < / - z) by (apply Qinv_lt_0_compat; lra).
  assert (E : p / z == - (p * / - z)) by (field; lra).
  split; intros Hp; rewrite E.
  - assert (0 < p * / - z) by (apply Qmult_lt_0_compat; assumption). lra.
  - assert (0 <= (- p) * / - z)
      by (apply Qmult_le_0_compat; [lra | apply Qlt_le_weak; exact Hinv]).
    lra.
Qed.

Lemma at_least_weaken (a b : Q) (x : number) :
  at_least a x -> b <= a -> at_least b x.
Proof.
  intros (q & -> & Hq) Hb. exists q. split; [reflexivity | lra].
Qed.

Lemma at_least_lit (q : Q) : at_least q (lit q).
Proof.
  exists (Qred q). split; [reflexivity|]. rewrite Qred_correct. lra.
Qed.

Lemma at_least_add (a b : Q) (x y : number) :
  at_least a x -> at_least b y -> at_least (a + b) (x + y)%js.
Proof.
  intros (p & -> & Hp) (q & -> & Hq). exists (Qred (p + q)).
  split; [reflexivity|]. rewrite Qred_correct. lra.
Qed.

Lemma at_least_add0 (x y : number) :
  at_least 0 x -> at_least 0 y -> at_least 0 (x + y)%js.
Proof.
  intros Hx Hy. apply (at_least_weaken (0 + 0)); [|lra].
  apply at_least_add; assumption.
Qed.

Lemma at_least_mul0 (x y : number) :
  at_least 0 x -> at_least 0 y -> at_least 0 (x * y)%js.
Proof.
  intros (p & -> & Hp) (q & -> & Hq). exists (Qred (p * q)).
  split; [reflexivity|]. rewrite Qred_correct.
  apply Qmult_le_0_compat; assumption.
Qed.

Lemma at_least_percent (x : number) :
  at_least 0 x -> at_least 0 (lit 1 + x / lit 100)%js.
Proof.
  intros (p & -> & Hp). apply at_least_add0.
  - apply (at_least_weaken 1); [apply at_least_lit | lra].
  - exists (Qred (p / 100)). split; [reflexivity|].
    rewrite Qred_correct. apply Qle_shift_div_l; lra.
Qed.

(** With inputs that are not negative the price before the discount is at
    least the flat part of the fee. *)
Lemma price_before_discount_at_least (materialCosts hoursWorked : number)
    (productRarity : string) (defaults : MetafieldDefaults.t) :
  let c :=
    Update.calculations materialCosts hoursWorked productRarity defaults in
  non_negative_inputs materialCosts hoursWorked c ->
  at_least (1 # 5) (price_before_discount c).
Proof.
  intros c (Hmc & Hhw & Hhr & Hmk & Hmult & Hsh & Hvat).
  assert (Hpv : at_least 0 (Update.priceWithVat c)).
  { apply at_least_mul0; [|apply at_least_percent; exact Hvat].
    apply at_least_add0; [|exact Hsh].
    apply at_least_mul0; [|exact Hmult].
    apply at_least_mul0; [|apply at_least_percent; exact Hmk].
    apply at_least_add0; [exact Hmc|].
    apply at_least_mul0; assumption. }
  apply (at_least_weaken (0 + (0 + 0.20))); [|lra].
  apply at_least_add; [exact Hpv|].
  apply at_least_add; [|apply at_least_lit].
  apply at_least_mul0; [exact Hpv|].
  apply (at_least_weaken 0.095); [apply at_least_lit | lra].
Qed.




(** ** The catalog under repeated writes *)

Module RemoteFacts.
Import Remote.

Arguments Update.has_key : simpl never.
Arguments node_of : simpl never.
Arguments in_custom : simpl never.
Arguments same_slot : simpl never.

Lemma same_slot_true (a b : Input.t) :
  same_slot a b = true <-> slot a = slot b.
Proof.
  unfold same_slot, slot. rewrite !andb_true_iff, !String.eqb_eq.
  split.
  - intros [[-> ->] ->]. reflexivity.
  - intros H. injection H as -> -> ->. auto.
Qed.

Lemma same_slot_refl (a : Input.t) : same_slot a a = true.
Proof. apply same_slot_true. reflexivity. Qed.

Lemma same_slot_false (a b : Input.t) :
  Input.key a <> Input.key b -> same_slot a b = false.
Proof.
  intros Hk. destruct (same_slot a b) eqn:E; [|reflexivity].
  apply same_slot_true in E. injection E as _ _ E. contradiction.
Qed.

Lemma same_slot_in_custom (gid : string) (a b : Input.t) :
  same_slot a b = true -> in_custom gid a = in_custom gid b.
Proof.
  intros H. apply same_slot_true in H. injection H as Ho Hn _.
  unfold in_custom. rewrite Ho, Hn. reflexivity.
Qed.

Lemma upsert_idempotent (i : Input.t) (cat : Catalog) :
  upsert i (upsert i cat) = upsert i cat.
Proof.
  induction cat as [|m rest IH]; cbn.
  - rewrite same_slot_refl. reflexivity.
  - destruct (same_slot i m) eqn:E; cbn.
    + rewrite same_slot_refl. reflexivity.
    + rewrite E, IH. reflexivity.
Qed.

(** A metafield that is stored stays stored when another slot is
    written. *)
Lemma upsert_other_slot (i j : Input.t) (cat : Catalog) :
  same_slot i j = false ->
  upsert i cat = cat -> upsert i (upsert j cat) = upsert j cat.
Proof.
  intros Hij. induction cat as [|m rest IH]; cbn; [discriminate|].
  destruct (same_slot i m) eqn:Eim, (same_slot j m) eqn:Ejm; cbn;
    intros H; rewrite ?Hij, ?Eim.
  - apply same_slot_true in Eim, Ejm.
    assert (same_slot i j = true)
      by (apply same_slot_true; congruence).
    congruence.
  - injection H as ->. reflexivity.
  - injection H as H. rewrite H. reflexivity.
  - injection H as H. rewrite (IH H). reflexivity.
Qed.

Lemma metafieldsSet_upserts (u : Upstream) (l : list Input.t)
    (cat : Catalog) :
  metafieldsSet u l cat = upserts (List.filter (accepts u) l) cat.
Proof.
  unfold metafieldsSet, upserts. revert cat.
  induction l as [|i l IH]; intros cat; cbn; [reflexivity|].
  destruct (accepts u i); cbn; apply IH.
Qed.

Lemma upserts_keep_stored (i : Input.t) (l : list Input.t) :
  ~ In (Input.key i) (List.map Input.key l) ->
  forall cat, upsert i cat = cat -> upsert i (upserts l cat) = upserts l cat.
Proof.
  induction l as [|j l IH]; intros Hnot cat Hst; cbn; [exact Hst|].
  apply IH; [intros H; apply Hnot; right; exact H|].
  apply upsert_other_slot; [|exact Hst].
  apply same_slot_false. intros E. apply Hnot. left. symmetry. exact E.
Qed.

Lemma upserts_stored (l : list Input.t) :
  NoDup (List.map Input.key l) ->
  forall cat i, In i l -> upsert i (upserts l cat) = upserts l cat.
Proof.
  induction l as [|j l IH]; intros Hnd cat i Hi; [destruct Hi|].
  cbn in Hnd. inversion Hnd as [|k ks Hnot Hnd']; subst.
  destruct Hi as [->|Hi]; cbn.
  - apply upserts_keep_stored; [exact Hnot | apply upsert_idempotent].
  - apply IH; assumption.
Qed.

Lemma upserts_of_stored (l : list Input.t) (cat : Catalog) :
  (forall i, In i l -> upsert i cat = cat) -> upserts l cat = cat.
Proof.
  induction l as [|j l IH]; intros Hst; cbn; [reflexivity|].
  rewrite (Hst j (or_introl eq_refl)). apply IH.
  intros i Hi. apply Hst. right. exact Hi.
Qed.

Lemma NoDup_map_filter {A B : Type} (f : A -> B) (p : A -> bool)
    (l : list A) :
  NoDup (List.map f l) -> NoDup (List.map f (List.filter p l)).
Proof.
  induction l as [|a l IH]; cbn; intros Hnd; [constructor|].
  inversion Hnd as [|b bs Hnot Hnd']; subst.
  destruct (p a); cbn; [|auto].
  constructor; [|auto].
  intros Hin. apply Hnot. apply in_map_iff in Hin.
  destruct Hin as (x & Hx & Hin). apply filter_In in Hin.
  rewrite <- Hx. apply in_map. tauto.
Qed.

(** Writing the same metafields a second time changes nothing. *)
Lemma metafieldsSet_idempotent (u : Upstream) (l : list Input.t)
    (cat : Catalog) :
  NoDup (List.map Input.key l) ->
  metafieldsSet u l (metafieldsSet u l cat) = metafieldsSet u l cat.
Proof.
  intros Hnd. rewrite !metafieldsSet_upserts.
  apply upserts_of_stored. intros i Hi.
  apply upserts_stored; [|exact Hi].
  apply NoDup_map_filter. exact Hnd.
Qed.

(** A write to one key leaves the query for another key as it was. *)
Lemma upsert_query_other_key (i : Input.t) (gid k : string) (cat : Catalog)
    (n : nat) :
  Input.key i <> k ->
  find (Update.has_key k)
    (List.firstn n (List.map node_of (List.filter (in_custom gid)
                                        (upsert i cat))))
  = find (Update.has_key k)
      (List.firstn n (List.map node_of (List.filter (in_custom gid) cat))).
Proof.
  intros Hk.
  assert (Hi : Update.has_key k (node_of i) = false).
  { unfold Update.has_key, node_of; cbn. apply String.eqb_neq. exact Hk. }
  revert n. induction cat as [|m rest IH]; intros n; cbn.
  - destruct (in_custom gid i); cbn; [|reflexivity].
    destruct n; cbn; [reflexivity|]. rewrite Hi. destruct n; reflexivity.
  - destruct (same_slot i m) eqn:E; cbn.
    + rewrite (same_slot_in_custom gid i m E).
      destruct (in_custom gid m); cbn; [|reflexivity].
      destruct n; cbn; [reflexivity|].
      assert (Hm : Update.has_key k (node_of m) = false).
      { apply same_slot_true in E. injection E as _ _ E.
        unfold Update.has_key, node_of; cbn. apply String.eqb_neq.
        congruence. }
      rewrite Hi, Hm. reflexivity.
    + destruct (in_custom gid m); cbn; [|apply IH].
      destruct n; cbn; [reflexivity|].
      destruct (Update.has_key k (node_of m)); [reflexivity | apply IH].
Qed.

Lemma metafieldsSet_query_other_key (u : Upstream) (l : list Input.t)
    (gid k : string) :
  ~ In k (List.map Input.key l) ->
  forall cat,
    attribute k (metafields_query (metafieldsSet u l cat) gid)
    = attribute k (metafields_query cat gid).
Proof.
  unfold attribute, metafields_query, metafieldsSet.
  induction l as [|i l IH]; intros Hnot cat; cbn [List.fold_left];
    [reflexivity|].
  rewrite IH by (intros H; apply Hnot; right; exact H).
  destruct (accepts u i); [|reflexivity].
  apply upsert_query_other_key. intros E. apply Hnot. left. exact E.
Qed.

End RemoteFacts.

(** ** Replay of an update notification *)

Lemma metafieldsToSet_keys (nts : Q -> string) (productGid : string)
    (c : Update.Calculated) :
  List.map Input.key (Update.metafieldsToSet nts productGid c)
  = derived_keys.
Proof. reflexivity. Qed.

Lemma derived_keys_NoDup : NoDup derived_keys.
Proof.
  unfold derived_keys.
  repeat (constructor; [cbn; intuition discriminate|]). constructor.
Qed.

Lemma input_key_not_derived (k : string) :
  In k input_keys -> ~ In k derived_keys.
Proof.
  cbn. intros [<-|[<-|[<-|[]]]]; intuition discriminate.
Qed.

(** The writes of the update handler are a function of the three input
    attributes and of the defaults row. *)
Lemma update_writes_same_inputs (nts : Q -> string) (env env' : Env)
    (request : string) (w : Webhook) :
  authenticate_webhook env request = inr w ->
  authenticate_webhook env' request = inr w ->
  same_inputs env env' w ->
  writes (snd (run (Update.action nts env request)))
  = writes (snd (run (Update.action nts env' request))).
Proof.
  intros Hw Hw' [Hattr Hd].
  rewrite (update_writes nts env request w Hw),
    (update_writes nts env' request w Hw').
  rewrite <- Hd, <- !Hattr by (cbn; tauto). reflexivity.
Qed.

Lemma fetched_env_of (u : Remote.Upstream) (cat : Remote.Catalog)
    (w : Webhook) :
  fetched (Remote.env_of u cat) w =
  match Remote.sessions u ("offline_" ++ shop w) with
  | inr (Some _) =>
      Remote.metafields_query cat (productGid_of (id (payload w)))
  | _ => []
  end.
Proof.
  unfold fetched. cbn.
  destruct (Remote.sessions u ("offline_" ++ shop w)) as [e|[s|]];
    reflexivity.
Qed.

(** The catalog after the writes of an update delivery shows the handler
    the same inputs as the catalog before. *)
Lemma same_inputs_after_writes (nts : Q -> string) (u : Remote.Upstream)
    (cat : Remote.Catalog) (w : Webhook) (c : Update.Calculated)
    (l : list (list Input.t)) :
  l = [] \/
  l = [Update.metafieldsToSet nts (productGid_of (id (payload w))) c] ->
  same_inputs (Remote.env_of u cat)
    (Remote.env_of u
       (List.fold_left (fun cat l => Remote.metafieldsSet u l cat) l cat))
    w.
Proof.
  intros Hl. split; [|reflexivity].
  intros k Hk. rewrite !fetched_env_of.
  destruct (Remote.sessions u ("offline_" ++ shop w)) as [e|[s|]];
    try reflexivity.
  destruct Hl as [->| ->]; cbn [List.fold_left]; [reflexivity|].
  symmetry. apply RemoteFacts.metafieldsSet_query_other_key.
  rewrite metafieldsToSet_keys. apply input_key_not_derived. exact Hk.
Qed.

(** The writes of an update delivery: none, or the derived attributes. *)
Lemma update_writes_shape (nts : Q -> string) (env : Env) (request : string)
    (w : Webhook) :
  authenticate_webhook env request = inr w ->
  exists c,
    writes (snd (run (Update.action nts env request))) = [] \/
    writes (snd (run (Update.action nts env request)))
    = [Update.metafieldsToSet nts (productGid_of (id (payload w))) c].
Proof.
  intros Hw. rewrite (update_writes nts env request w Hw).
  destruct (attribute "material_costs" (fetched env w)) as [mc|];
    [|exists (Update.calculations NaN NaN "" Examples.defaults_empty);
      left; reflexivity].
  destruct (attribute "hours_worked" (fetched env w)) as [hw|];
    [|exists (Update.calculations NaN NaN "" Examples.defaults_empty);
      left; reflexivity].
  destruct (prisma_findUnique env (shop w)) as [e|[defaults|]];
    try (exists (Update.calculations NaN NaN "" Examples.defaults_empty);
         left; reflexivity).
  eexists. right. reflexivity.
Qed.

(** C9. The writes of the update handler are a function of the three input
    attributes of the item and of the defaults row: two deliveries that see
    the same inputs send the same mutation, whatever the derived attributes
    on the item are.  Hence a notification that is delivered again to the
    catalog that its first delivery left is answered alike, sends the same
    mutation and leaves the catalog as the first delivery left it. *)
Theorem replay_is_idempotent :
  (forall (nts : Q -> string) (env env' : Env) (request : string)
          (w : Webhook),
      authenticate_webhook env request = inr w ->
      authenticate_webhook env' request = inr w ->
      same_inputs env env' w ->
      writes (snd (run (Update.action nts env request)))
      = writes (snd (run (Update.action nts env' request)))) /\
  (forall (nts : Q -> string) (u : Remote.Upstream) (request : string)
          (cat : Remote.Catalog),
      let first := Remote.deliver (Update.action nts) u request cat in
      let second :=
        Remote.deliver (Update.action nts) u request (catalog_of first) in
      completion_of second = completion_of first /\
      writes (trace_of second) = writes (trace_of first) /\
      catalog_of second = catalog_of first).
Proof.
  split; [exact update_writes_same_inputs|].
  intros nts u request cat first second.
  unfold second, first, Remote.deliver, completion_of, trace_of, catalog_of.
  destruct (run (Update.action nts (Remote.env_of u cat) request))
    as [c1 tr1] eqn:E1. cbn [fst snd].
  set (cat1 :=
         List.fold_left (fun cat l => Remote.metafieldsSet u l cat)
           (writes tr1) cat).
  destruct (run (Update.action nts (Remote.env_of u cat1) request))
    as [c2 tr2] eqn:E2. cbn [fst snd].
  destruct (Remote.webhook u request) as [e|w] eqn:Hw.
  - (* the authentication fails both times, outside the guarded block *)
    unfold run, Update.action, bind, await in E1, E2. cbn in E1, E2.
    rewrite Hw in E1, E2. injection E1 as <- <-. injection E2 as <- <-.
    repeat split.
  - assert (Hw1 : authenticate_webhook (Remote.env_of u cat) request = inr w)
      by exact Hw.
    assert (Hw2 : authenticate_webhook (Remote.env_of u cat1) request = inr w)
      by exact Hw.
    pose proof (update_acknowledged nts _ request w Hw1) as A1.
    pose proof (update_acknowledged nts _ request w Hw2) as A2.
    unfold acknowledged in A1, A2. rewrite E1 in A1. rewrite E2 in A2.
    cbn in A1, A2.
    destruct (update_writes_shape nts _ request w Hw1) as (c & Hshape).
    rewrite E1 in Hshape. cbn [snd] in Hshape.
    assert (Hsame : writes tr2 = writes tr1).
    { change tr2 with (snd (c2, tr2)). change tr1 with (snd (c1, tr1)).
      rewrite <- E1, <- E2. symmetry.
      apply (update_writes_same_inputs nts _ _ request w Hw1 Hw2).
      apply (same_inputs_after_writes nts u cat w c). exact Hshape. }
    split; [congruence|]. split; [exact Hsame|].
    rewrite Hsame. unfold cat1.
    destruct Hshape as [-> | ->]; cbn [List.fold_left]; [reflexivity|].
    apply RemoteFacts.metafieldsSet_idempotent.
    rewrite metafieldsToSet_keys. exact derived_keys_NoDup.
Qed.

Lemma replay_is_idempotent_witness :
  writes
    (snd (run (Update.action Examples.no_exponent_notation
                 (Examples.env_with Examples.item_A
                    (Some Examples.defaults_A))
                 "notification")))
  = writes
      (snd (run (Update.action Examples.no_exponent_notation
                   (Examples.env_with Examples.item_A_written
                      (Some Examples.defaults_A))
                   "notification"))).
Proof.
  apply (proj1 replay_is_idempotent Examples.no_exponent_notation
           (Examples.env_with Examples.item_A (Some Examples.defaults_A))
           (Examples.env_with Examples.item_A_written
              (Some Examples.defaults_A))
           "notification" Examples.the_webhook eq_refl eq_refl).
  split; [|reflexivity].
  intros k Hk. cbn in Hk.
  destruct Hk as [<-|[<-|[<-|[]]]]; reflexivity.
Defined.

(** * Further properties of the handlers *)

(** ** The calls of a delivery *)

(** X1. A notification that [authenticate.webhook] rejects is not
    acknowledged: the rejection leaves the action as it is, and nothing was
    called before. *)
Theorem authentication_fault_propagates :
  forall (nts : Q -> string) (env : Env) (request : string) (e : Error),
    authenticate_webhook env request = inl e ->
    run (Update.action nts env request) = (Throw e, []) /\
    run (Create.action env request) = (Throw e, []).
Proof.
  intros nts env request e He. exec. rewrite He. split; reflexivity.
Qed.

Lemma authentication_fault_propagates_witness :
  run (Update.action Examples.no_exponent_notation Cases.env_unauthenticated
         "notification") = (Throw (Rejection "401"), []) /\
  run (Create.action Cases.env_unauthenticated "notification")
  = (Throw (Rejection "401"), []).
Proof.
  apply (authentication_fault_propagates Examples.no_exponent_notation
           Cases.env_unauthenticated "notification" (Rejection "401")).
  reflexivity.
Defined.

(** X2. The calls of a delivery follow one protocol.  The update handler
    loads the offline session of the shop, then queries the metafields of
    the product, then looks up the defaults of the shop, then sends one
    mutation; it may stop after any of them, and calls nothing else.  The
    create handler does the same without the query.  Both requests go to
    the shop of the notification with the token of its session. *)
Theorem call_protocol :
  forall (nts : Q -> string) (env : Env) (request : string) (w : Webhook),
    authenticate_webhook env request = inr w ->
    let sid := "offline_" ++ shop w in
    let gid := productGid_of (id (payload w)) in
    let updated := calls (snd (run (Update.action nts env request))) in
    let created := calls (snd (run (Create.action env request))) in
    (updated = [LoadSession sid] \/
     exists session,
       sessionStorage_loadSession env sid = inr (Some session) /\
       let query :=
         Fetch (shop w) (accessToken session) (GetProductMetafields gid) in
       (updated = [LoadSession sid; query] \/
        updated = [LoadSession sid; query; FindUnique (shop w)] \/
        exists l,
          updated =
          [ LoadSession sid; query; FindUnique (shop w);
            Fetch (shop w) (accessToken session) (MetafieldsSet l) ])) /\
    (created = [LoadSession sid] \/
     created = [LoadSession sid; FindUnique (shop w)] \/
     exists session l,
       sessionStorage_loadSession env sid = inr (Some session) /\
       created =
       [ LoadSession sid; FindUnique (shop w);
         Fetch (shop w) (accessToken session) (MetafieldsSet l) ]).
Proof.
  intros nts env request w Hw sid gid updated created.
  unfold updated, created. exec. rewrite Hw. cbn. fold sid. fold gid.
  destruct (sessionStorage_loadSession env sid) as [e|[session|]] eqn:Hs;
    cbn; [auto| |auto].
  split.
  - right. exists session. split; [reflexivity|].
    split_match; cbn; eauto.
  - split_match; cbn; eauto 6.
Qed.

Lemma call_protocol_witness :
  exists rest,
    calls
      (snd (run (Update.action Examples.no_exponent_notation
                   (Examples.env_with Examples.item_A None) "notification")))
    = LoadSession "offline_demo.myshopify.com" :: rest.
Proof.
  pose proof (call_protocol Examples.no_exponent_notation
                (Examples.env_with Examples.item_A None) "notification"
                Examples.the_webhook eq_refl) as H.
  cbv zeta in H.
  destruct H as [[H|(session & _ & [H|[H|(l & H)]])] _];
    rewrite H; eexists; reflexivity.
Defined.

(** X3. Without an offline session of the shop both handlers stop at
    once: the missing session is logged, nothing is queried, looked up or
    written, and the notification is acknowledged. *)
Theorem no_session_stops_the_delivery :
  forall (nts : Q -> string) (env : Env) (request : string) (w : Webhook),
    authenticate_webhook env request = inr w ->
    sessionStorage_loadSession env ("offline_" ++ shop w) = inr None ->
    let stopped :=
      (Normal {| body := None; status := 200%N |},
       [ LoadSession ("offline_" ++ shop w);
         Console (NoSessionFound (shop w)) ]) in
    run (Update.action nts env request) = stopped /\
    run (Create.action env request) = stopped.
Proof.
  intros nts env request w Hw Hs stopped. unfold stopped.
  exec. rewrite Hw. cbn. rewrite Hs. split; reflexivity.
Qed.

Lemma no_session_stops_the_delivery_witness :
  run (Create.action Cases.env_no_session "notification")
  = (Normal {| body := None; status := 200%N |},
     [ LoadSession "offline_demo.myshopify.com";
       Console (NoSessionFound "demo.myshopify.com") ]).
Proof.
  apply (no_session_stops_the_delivery Examples.no_exponent_notation
           Cases.env_no_session "notification" Examples.the_webhook
           eq_refl eq_refl).
Defined.

(** X4. The update handler looks up the defaults of the shop only after
    it found both inputs on the item: when [material_costs] or
    [hours_worked] is missing, the database is not asked. *)
Theorem missing_input_skips_the_lookup :
  forall (nts : Q -> string) (env : Env) (request : string) (w : Webhook),
    authenticate_webhook env request = inr w ->
    attribute "material_costs" (fetched env w) = None \/
    attribute "hours_worked" (fetched env w) = None ->
    forall shop, ~ In (FindUnique shop)
                      (snd (run (Update.action nts env request))).
Proof.
  intros nts env request w Hw Hmissing shop0.
  revert Hmissing. unfold fetched, attribute, edges_or_empty.
  exec. rewrite Hw. cbn.
  split_match; cbn; intros Hmissing Hin;
    try (destruct Hmissing; discriminate);
    repeat (destruct Hin as [Hin|Hin]; [discriminate Hin|]);
    try exact Hin.
Qed.

Lemma missing_input_skips_the_lookup_witness :
  ~ In (FindUnique "demo.myshopify.com")
       (snd (run (Update.action Examples.no_exponent_notation
                    (Examples.env_with [Examples.node "hours_worked" "2"]
                       (Some Examples.defaults_A))
                    "notification"))).
Proof.
  apply (missing_input_skips_the_lookup Examples.no_exponent_notation
           (Examples.env_with [Examples.node "hours_worked" "2"]
              (Some Examples.defaults_A))
           "notification" Examples.the_webhook eq_refl).
  left. reflexivity.
Defined.

(** X5. When the query of the metafields fails, the update handler goes
    no further: a transport fault, or a JSON [null] in place of the answer,
    is logged as the error of the webhook, and an answer without metafields
    is an item without inputs; in each case no defaults are looked up,
    nothing is written and the notification is acknowledged. *)
Theorem failed_query_ends_the_update :
  forall (nts : Q -> string) (env : Env) (request : string) (w : Webhook)
         (session : Session),
    authenticate_webhook env request = inr w ->
    sessionStorage_loadSession env ("offline_" ++ shop w)
    = inr (Some session) ->
    let answer :=
      query_json env (shop w) (accessToken session)
        (productGid_of (id (payload w))) in
    let ended (m : Message) :=
      (Normal {| body := None; status := 200%N |},
       [ LoadSession ("offline_" ++ shop w);
         Fetch (shop w) (accessToken session)
           (GetProductMetafields (productGid_of (id (payload w))));
         Console m ]) in
    (forall e, answer = inl e ->
               run (Update.action nts env request)
               = ended (ErrorInWebhook e)) /\
    (answer = inr None ->
     run (Update.action nts env request) = ended (ErrorInWebhook TypeError)) /\
    (answer = inr (Some {| edges := None |}) \/
     answer = inr (Some {| edges := Some [] |}) ->
     run (Update.action nts env request) = ended SkippingCalculation).
Proof.
  intros nts env request w session Hw Hs answer ended.
  unfold ended, answer. exec. rewrite Hw. cbn. rewrite Hs.
  repeat split.
  - intros e He. rewrite He. reflexivity.
  - intros He. rewrite He. reflexivity.
  - intros [He|He]; rewrite He; reflexivity.
Qed.

Lemma failed_query_ends_the_update_witness :
  run (Update.action Examples.no_exponent_notation Cases.env_query_fails
         "notification")
  = (Normal {| body := None; status := 200%N |},
     [ LoadSession "offline_demo.myshopify.com";
       Fetch "demo.myshopify.com" "shpat_demo"
         (GetProductMetafields "gid://shopify/Product/42");
       Console (ErrorInWebhook (Rejection "fetch failed")) ]).
Proof.
  pose proof (failed_query_ends_the_update Examples.no_exponent_notation
                Cases.env_query_fails "notification" Examples.the_webhook
                Examples.the_session eq_refl eq_refl) as H.
  cbv zeta in H. destruct H as (H & _).
  exact (H (Rejection "fetch failed") eq_refl).
Defined.

(** ** The answer to the mutation *)

(** X6. The update handler sends its mutation once and only logs what
    comes back: a transport fault is logged as the error of the webhook,
    user errors of the platform are logged as such, and every other answer,
    a JSON [null] among them, is logged as a success.  In each case the
    notification is acknowledged and nothing is sent again. *)
Theorem update_logs_the_answer :
  forall (nts : Q -> string) (env : Env) (request : string) (w : Webhook)
         (session : Session) (mc hw : Node.t)
         (defaults : MetafieldDefaults.t),
    authenticate_webhook env request = inr w ->
    sessionStorage_loadSession env ("offline_" ++ shop w)
    = inr (Some session) ->
    attribute "material_costs" (fetched env w) = Some mc ->
    attribute "hours_worked" (fetched env w) = Some hw ->
    prisma_findUnique env (shop w) = inr (Some defaults) ->
    let gid := productGid_of (id (payload w)) in
    let metafieldsToSet :=
      Update.metafieldsToSet nts gid
        (Update.calculations (parseFloat (Node.value mc))
           (parseFloat (Node.value hw))
           (Update.productRarity_of (attribute "rarity" (fetched env w)))
           defaults) in
    run (Update.action nts env request) =
    (Normal {| body := None; status := 200%N |},
     [ LoadSession ("offline_" ++ shop w);
       Fetch (shop w) (accessToken session) (GetProductMetafields gid);
       FindUnique (shop w);
       Fetch (shop w) (accessToken session) (MetafieldsSet metafieldsToSet);
       Console
         (update_verdict
            (mutation_json env (shop w) (accessToken session)
               metafieldsToSet)) ]).
Proof.
  intros nts env request w session mc hw defaults Hw Hs.
  unfold fetched, attribute, edges_or_empty. rewrite Hs.
  exec. rewrite Hw. cbn. rewrite Hs. cbn.
  destruct (query_json env (shop w) (accessToken session)
              (productGid_of (id (payload w)))) as [e|[d|]];
    cbn; try discriminate.
  intros Hmc Hhw Hd. rewrite Hmc, Hhw. cbn. rewrite Hd. cbn.
  unfold update_verdict.
  destruct (mutation_json env (shop w) (accessToken session) _)
    as [e|[[[[|e errs]|] errs']|]]; reflexivity.
Qed.

Lemma update_logs_the_answer_witness :
  messages
    (snd (run (Update.action Examples.no_exponent_notation
                 Cases.env_rejecting "notification")))
  = [ ErrorSettingMetafields
        [ {| field := ["metafields"; "0"; "value"];
             message := "Value must be a decimal" |} ] ] /\
  writes
    (snd (run (Update.action Examples.no_exponent_notation
                 Cases.env_rejecting "notification")))
  = [ Examples.derived "40.00" "92.38" "7.40" "50.40" ].
Proof.
  rewrite (update_logs_the_answer Examples.no_exponent_notation
             Cases.env_rejecting "notification" Examples.the_webhook
             Examples.the_session (Examples.node "material_costs" "10")
             (Examples.node "hours_worked" "2") Examples.defaults_A
             eq_refl eq_refl eq_refl eq_refl eq_refl).
  split; vm_compute; reflexivity.
Defined.

(** X7. The create handler sends its mutation once when the defaults hold
    a value, and none when they hold no value at all.  Of the answer it
    only logs: a transport fault, and a JSON [null], on which reading the
    data throws, as the error of the webhook; otherwise the user errors or
    the success, and after them the GraphQL errors when the answer has
    some.  In each case the notification is acknowledged. *)
Theorem create_logs_the_answer :
  forall (env : Env) (request : string) (w : Webhook) (session : Session)
         (defaults : MetafieldDefaults.t),
    authenticate_webhook env request = inr w ->
    sessionStorage_loadSession env ("offline_" ++ shop w)
    = inr (Some session) ->
    prisma_findUnique env (shop w) = inr (Some defaults) ->
    let metafieldsSetInput :=
      Create.metafieldsSetInput (productGid_of (id (payload w)))
        (Create.metafields_of defaults) in
    (Create.metafields_of defaults = [] ->
     run (Create.action env request) =
     (Normal {| body := None; status := 200%N |},
      [ LoadSession ("offline_" ++ shop w); FindUnique (shop w);
        Console NoValuesToApply ])) /\
    (Create.metafields_of defaults <> [] ->
     run (Create.action env request) =
     (Normal {| body := None; status := 200%N |},
      [ LoadSession ("offline_" ++ shop w); FindUnique (shop w);
        Fetch (shop w) (accessToken session)
          (MetafieldsSet metafieldsSetInput) ] ++
      List.map Console
        (create_verdict
           (mutation_json env (shop w) (accessToken session)
              metafieldsSetInput)))%list).
Proof.
  intros env request w session defaults Hw Hs Hd metafieldsSetInput.
  unfold metafieldsSetInput. exec. rewrite Hw. cbn. rewrite Hs. cbn.
  rewrite Hd. cbn. split.
  - intros ->. reflexivity.
  - intros Hne.
    destruct (Create.metafields_of defaults) as [|mf rest] eqn:Hm;
      [contradiction|]. cbn.
    unfold create_verdict.
    destruct (mutation_json env (shop w) (accessToken session) _)
      as [e|[[[[|e errs]|] []]|]]; reflexivity.
Qed.

Lemma create_logs_the_answer_witness :
  messages (snd (run (Create.action Cases.env_rejecting "notification")))
  = [ ErrorSettingMetafields
        [ {| field := ["metafields"; "0"; "value"];
             message := "Value must be a decimal" |} ];
      GraphQLErrors ].
Proof.
  pose proof (create_logs_the_answer Cases.env_rejecting "notification"
                Examples.the_webhook Examples.the_session Examples.defaults_A
                eq_refl eq_refl eq_refl) as H.
  cbv zeta in H. destruct H as [_ H].
  rewrite H; [vm_compute; reflexivity | discriminate].
Defined.

(** ** What is written, and where *)

(** X8. Whatever the environment answers, every attribute that a handler
    writes is an attribute of the product of the notification in the
    namespace [custom].  The update handler writes decimals under the four
    derived keys only; the create handler writes under the keys of the
    defaults only, decimals but for the rarity, which is a line of text. *)
Theorem writes_stay_on_the_product :
  forall (nts : Q -> string) (env : Env) (request : string) (w : Webhook),
    authenticate_webhook env request = inr w ->
    let gid := productGid_of (id (payload w)) in
    (forall l i,
        In l (writes (snd (run (Update.action nts env request)))) ->
        In i l ->
        Input.ownerId i = gid /\ Input.namespace i = "custom" /\
        Input.type i = "number_decimal" /\ In (Input.key i) derived_keys) /\
    (forall l i,
        In l (writes (snd (run (Create.action env request)))) ->
        In i l ->
        Input.ownerId i = gid /\ Input.namespace i = "custom" /\
        In (Input.key i) (List.map (fun fkt => snd (fst fkt)) seeded) /\
        (Input.type i = "single_line_text_field" <-> Input.key i = "rarity") /\
        (Input.type i = "number_decimal" <-> Input.key i <> "rarity")).
Proof.
  intros nts env request w Hw gid. split.
  - intros l i Hl Hi. rewrite (update_writes nts env request w Hw) in Hl.
    destruct (attribute "material_costs" (fetched env w)); [|destruct Hl].
    destruct (attribute "hours_worked" (fetched env w)); [|destruct Hl].
    destruct (prisma_findUnique env (shop w)) as [e|[defaults|]];
      [destruct Hl| |destruct Hl].
    destruct Hl as [<-|[]]. unfold Update.metafieldsToSet in Hi.
    cbn in Hi. destruct Hi as [<-|[<-|[<-|[<-|[]]]]]; cbn; tauto.
  - intros l i Hl Hi. rewrite (create_writes env request w Hw) in Hl.
    destruct (sessionStorage_loadSession env ("offline_" ++ shop w))
      as [e|[session|]]; [destruct Hl| |destruct Hl].
    destruct (prisma_findUnique env (shop w)) as [e|[defaults|]];
      [destruct Hl| |destruct Hl].
    assert (Hi' : In i (Create.metafieldsSetInput gid
                          (Create.metafields_of defaults))).
    { destruct (Create.metafields_of defaults); [destruct Hl|].
      destruct Hl as [<-|[]]. exact Hi. }
    apply seeded_inputs in Hi'.
    destruct Hi' as (f & key & type & s & Hseed & _ & ->).
    cbn in Hseed.
    repeat (destruct Hseed as [Hseed|Hseed];
            [injection Hseed as <- <- <-; cbn;
             repeat split; try tauto; try discriminate;
             intros H; try discriminate H; try (exfalso; apply H; reflexivity)
            |]).
    destruct Hseed.
Qed.

Lemma writes_stay_on_the_product_witness :
  List.Forall
    (List.Forall
       (fun i => Input.ownerId i = "gid://shopify/Product/42" /\
                 Input.namespace i = "custom"))
    (writes
       (snd (run (Create.action
                    (Examples.env_with Examples.item_A
                       (Some Examples.defaults_A))
                    "notification")))).
Proof.
  apply Forall_forall. intros l Hl. apply Forall_forall. intros i Hi.
  pose proof (writes_stay_on_the_product Examples.no_exponent_notation
                (Examples.env_with Examples.item_A
                   (Some Examples.defaults_A))
                "notification" Examples.the_webhook eq_refl) as H.
  cbv zeta in H. destruct H as [_ H].
  destruct (H l i Hl Hi) as (Ho & Hn & _). split; assumption.
Defined.

Lemma to_uint_not_Nil (n : N) : N.to_uint n <> Decimal.Nil.
Proof.
  destruct n as [|p]; [discriminate|].
  apply DecimalPos.Unsigned.to_uint_nonnil.
Qed.



(** ** The order of the seeded attributes *)

Lemma pushed_key (v : option string) (key type : string) :
  List.map Create.Mf.key (pushed v key type)
  = if truthy v then [key] else [].
Proof.
  unfold pushed, truthy. destruct v as [s|]; [|reflexivity].
  destruct (s =? "")%string; reflexivity.
Qed.

Lemma metafields_of_keys :
  forall defaults : MetafieldDefaults.t,
    let keys := List.map Create.Mf.key (Create.metafields_of defaults) in
    keys =
    List.map (fun fkt => snd (fst fkt))
      (List.filter (fun fkt => truthy (fst (fst fkt) defaults)) seeded) /\
    NoDup keys /\
    (List.length keys <= 8)%nat /\
    (keys = [] <-> forall f, truthy (Page.column f defaults) = false).
Proof.
  intros defaults keys.
  assert (Hkeys :
    keys =
    List.map (fun fkt => snd (fst fkt))
      (List.filter (fun fkt => truthy (fst (fst fkt) defaults)) seeded)).
  { unfold keys. rewrite metafields_of_seeded.
    induction seeded as [|[[f key] type] l IH]; [reflexivity|].
    cbn [List.flat_map List.filter fst snd].
    rewrite map_app, pushed_key, IH.
    destruct (truthy (f defaults)); reflexivity. }
  split; [exact Hkeys|]. split; [|split].
  - rewrite Hkeys. apply RemoteFacts.NoDup_map_filter. cbn.
    repeat (constructor; [cbn; intuition discriminate|]). constructor.
  - rewrite Hkeys, length_map.
    etransitivity; [apply filter_length_le|]. reflexivity.
  - rewrite Hkeys. cbn. split.
    + intros H f.
      destruct (truthy (MetafieldDefaults.etsyDiscount defaults)) eqn:E1;
        [discriminate H|].
      destruct (truthy (MetafieldDefaults.shipping defaults)) eqn:E2;
        [discriminate H|].
      destruct (truthy (MetafieldDefaults.vat defaults)) eqn:E3;
        [discriminate H|].
      destruct (truthy (MetafieldDefaults.normalMultiplier defaults)) eqn:E4;
        [discriminate H|].
      destruct (truthy (MetafieldDefaults.ooakMultiplier defaults)) eqn:E5;
        [discriminate H|].
      destruct (truthy (MetafieldDefaults.rarity defaults)) eqn:E6;
        [discriminate H|].
      destruct (truthy (MetafieldDefaults.etsyMarkupProfit defaults)) eqn:E7;
        [discriminate H|].
      destruct (truthy (MetafieldDefaults.hourlyRate defaults)) eqn:E8;
        [discriminate H|].
      destruct f; assumption.
    + intros H.
      pose proof (H Page.etsyDiscount) as H1.
      pose proof (H Page.shipping) as H2.
      pose proof (H Page.vat) as H3.
      pose proof (H Page.normalMultiplier) as H4.
      pose proof (H Page.ooakMultiplier) as H5.
      pose proof (H Page.rarity) as H6.
      pose proof (H Page.etsyMarkupProfit) as H7.
      pose proof (H Page.hourlyRate) as H8.
      cbn [Page.column] in H1, H2, H3, H4, H5, H6, H7, H8.
      rewrite H1, H2, H3, H4, H5, H6, H7, H8. reflexivity.
Qed.

(** X10. The mutation of the create handler lists the attributes in one
    fixed order, that of the handler's tests: the keys are those of the
    truthy fields of the defaults, in the order discount, shipping, tax,
    normal multiplier, one-of-a-kind multiplier, rarity, markup, hourly
    rate, each at most once. *)
Theorem seeded_attributes_in_order :
  forall defaults : MetafieldDefaults.t,
    let keys := List.map Create.Mf.key (Create.metafields_of defaults) in
    keys =
    List.map (fun fkt => snd (fst fkt))
      (List.filter (fun fkt => truthy (fst (fst fkt) defaults)) seeded) /\
    NoDup keys /\
    (List.length keys <= 8)%nat /\
    (keys = [] <-> forall f, truthy (Page.column f defaults) = false).
Proof.
  intros defaults keys.
  assert (Hkeys :
    keys =
    List.map (fun fkt => snd (fst fkt))
      (List.filter (fun fkt => truthy (fst (fst fkt) defaults)) seeded)).
  { unfold keys. rewrite metafields_of_seeded.
    induction seeded as [|[[f key] type] l IH]; [reflexivity|].
    cbn [List.flat_map List.filter fst snd].
    rewrite map_app, pushed_key, IH.
    destruct (truthy (f defaults)); reflexivity. }
  split; [exact Hkeys|]. split; [|split].
  - rewrite Hkeys. apply RemoteFacts.NoDup_map_filter. cbn.
    repeat (constructor; [cbn; intuition discriminate|]). constructor.
  - rewrite Hkeys, length_map.
    etransitivity; [apply filter_length_le|]. reflexivity.
  - rewrite Hkeys. cbn. split.
    + intros H f.
      destruct (truthy (MetafieldDefaults.etsyDiscount defaults)) eqn:E1;
        [discriminate H|].
      destruct (truthy (MetafieldDefaults.shipping defaults)) eqn:E2;
        [discriminate H|].
      destruct (truthy (MetafieldDefaults.vat defaults)) eqn:E3;
        [discriminate H|].
      destruct (truthy (MetafieldDefaults.normalMultiplier defaults)) eqn:E4;
        [discriminate H|].
      destruct (truthy (MetafieldDefaults.ooakMultiplier defaults)) eqn:E5;
        [discriminate H|].
      destruct (truthy (MetafieldDefaults.rarity defaults)) eqn:E6;
        [discriminate H|].
      destruct (truthy (MetafieldDefaults.etsyMarkupProfit defaults)) eqn:E7;
        [discriminate H|].
      destruct (truthy (MetafieldDefaults.hourlyRate defaults)) eqn:E8;
        [discriminate H|].
      destruct f; assumption.
    + intros H.
      pose proof (H Page.etsyDiscount) as H1.
      pose proof (H Page.shipping) as H2.
      pose proof (H Page.vat) as H3.
      pose proof (H Page.normalMultiplier) as H4.
      pose proof (H Page.ooakMultiplier) as H5.
      pose proof (H Page.rarity) as H6.
      pose proof (H Page.etsyMarkupProfit) as H7.
      pose proof (H Page.hourlyRate) as H8.
      cbn [Page.column] in H1, H2, H3, H4, H5, H6, H7, H8.
      rewrite H1, H2, H3, H4, H5, H6, H7, H8. reflexivity.
Qed.

Lemma seeded_attributes_in_order_witness :
  List.map Create.Mf.key (Create.metafields_of Examples.defaults_A)
  = [ "etsy_discount"; "shipping"; "vat"; "normal_multiplier";
      "etsy_markup_profit"; "hourly_rate" ].
Proof.
  pose proof (seeded_attributes_in_order Examples.defaults_A) as H.
  cbv zeta in H. destruct H as [H _]. rewrite H. reflexivity.
Defined.

(** * Further properties of the calculation *)

(** ** Values of finite numbers *)

Lemma has_value_eq (x : number) (a b : Q) :
  has_value x a -> a == b -> has_value x b.
Proof.
  intros (q & -> & Hq) Hab. exists q. split; [reflexivity|].
  rewrite Hq. exact Hab.
Qed.

Lemma has_value_lit (q : Q) : has_value (lit q) q.
Proof. exists (Qred q). split; [reflexivity | apply Qred_correct]. Qed.

Lemma has_value_add (x y : number) (a b : Q) :
  has_value x a -> has_value y b -> has_value (x + y)%js (a + b).
Proof.
  intros (p & -> & Hp) (q & -> & Hq). exists (Qred (p + q)).
  split; [reflexivity|]. rewrite Qred_correct, Hp, Hq. reflexivity.
Qed.

Lemma has_value_mul (x y : number) (a b : Q) :
  has_value x a -> has_value y b -> has_value (x * y)%js (a * b).
Proof.
  intros (p & -> & Hp) (q & -> & Hq). exists (Qred (p * q)).
  split; [reflexivity|]. rewrite Qred_correct, Hp, Hq. reflexivity.
Qed.

Lemma has_value_sub (x y : number) (a b : Q) :
  has_value x a -> has_value y b -> has_value (x - y)%js (a - b).
Proof.
  intros (p & -> & Hp) (q & -> & Hq). exists (Qred (p + Qred (- q))).
  split; [reflexivity|]. rewrite !Qred_correct, Hp, Hq. reflexivity.
Qed.

Lemma has_value_div (x y : number) (a b : Q) :
  has_value x a -> has_value y b -> ~ b == 0 ->
  has_value (x / y)%js (a / b).
Proof.
  intros (p & -> & Hp) (q & -> & Hq) Hb. exists (Qred (p / q)). split.
  - unfold div. destruct (q ?= 0) eqn:E; try reflexivity.
    apply Qeq_alt in E. rewrite Hq in E. contradiction.
  - rewrite Qred_correct, Hp, Hq. reflexivity.
Qed.

Lemma has_value_percent (x : number) (a : Q) :
  has_value x a -> has_value (lit 1 + x / lit 100)%js (1 + a / 100).
Proof.
  intros Hx. apply has_value_add; [apply has_value_lit|].
  apply has_value_div; [exact Hx | apply has_value_lit | discriminate].
Qed.

Lemma has_value_finite (x : number) (a : Q) :
  has_value x a -> isFinite x = true.
Proof. intros (q & -> & _). reflexivity. Qed.

Lemma finite_has_value (x : number) :
  isFinite x = true -> exists a, has_value x a.
Proof.
  destruct x as [| |q]; try discriminate. intros _.
  exists q, q. split; reflexivity.
Qed.

Lemma calculation_values :
  forall (materialCosts hoursWorked : number) (productRarity : string)
         (defaults : MetafieldDefaults.t) (a h r m k s v : Q),
    let c :=
      Update.calculations materialCosts hoursWorked productRarity defaults in
    has_value materialCosts a -> has_value hoursWorked h ->
    has_value (Update.hourlyRate c) r -> has_value (Update.markup c) m ->
    has_value (Update.rarityMultiplier c) k ->
    has_value (Update.shipping c) s -> has_value (Update.vat c) v ->
    let total := a + h * r in
    let withVat := (total * (1 + m / 100) * k + s) * (1 + v / 100) in
    has_value (Update.totalCost c) total /\
    has_value (Update.priceWithVat c) withVat /\
    has_value (Update.etsyFees c) (0.095 * withVat + 0.20) /\
    has_value (price_before_discount c) (1.095 * withVat + 0.20) /\
    has_value (Update.marketPrice c) (1.05 * total * k).
Proof.
  intros materialCosts hoursWorked productRarity defaults a h r m k s v c
    Ha Hh Hr Hm Hk Hs Hv total withVat.
  assert (Htotal : has_value (Update.totalCost c) total).
  { apply has_value_add; [exact Ha|]. apply has_value_mul; assumption. }
  assert (HwithVat : has_value (Update.priceWithVat c) withVat).
  { apply has_value_mul; [|apply has_value_percent; exact Hv].
    apply has_value_add; [|exact Hs].
    apply has_value_mul; [|exact Hk].
    apply has_value_mul; [exact Htotal | apply has_value_percent; exact Hm]. }
  assert (Hfees : has_value (Update.etsyFees c) (withVat * 0.095 + 0.20)).
  { apply has_value_add; [|apply has_value_lit].
    apply has_value_mul; [exact HwithVat | apply has_value_lit]. }
  split; [exact Htotal|]. split; [exact HwithVat|]. split; [|split].
  - apply (has_value_eq _ _ _ Hfees). ring.
  - apply (has_value_eq _ (withVat + (withVat * 0.095 + 0.20))); [|ring].
    apply has_value_add; [exact HwithVat | exact Hfees].
  - apply (has_value_eq _ (total * 1.05 * k)); [|ring].
    apply has_value_mul; [|exact Hk].
    apply has_value_mul; [exact Htotal | apply has_value_lit].
Qed.



(** ** The discount step *)

Lemma discount_not_applied (materialCosts hoursWorked : number)
    (productRarity : string) (defaults : MetafieldDefaults.t) :
  let c :=
    Update.calculations materialCosts hoursWorked productRarity defaults in
  (Update.discount c > lit 0)%js = false ->
  Update.finalEtsyPrice c = price_before_discount c.
Proof.
  intros c H.
  pose proof (finalEtsyPrice_eq materialCosts hoursWorked productRarity
                defaults) as Hfinal.
  cbv zeta in Hfinal. fold c in Hfinal. rewrite Hfinal, H. reflexivity.
Qed.

Lemma Qltb_false (a b : Q) : Qltb a b = false <-> b <= a.
Proof.
  destruct (Qltb a b) eqn:E.
  - apply Qltb_true in E. split; [discriminate | intros H; lra].
  - split; [intros _ | reflexivity].
    destruct (Qlt_le_dec a b) as [Hlt|Hle]; [|exact Hle].
    apply Qltb_true in Hlt. congruence.
Qed.

Lemma divisor_value (x : number) (q : Q) :
  has_value x q -> has_value (lit 1 - x / lit 100)%js (1 - q / 100).
Proof.
  intros Hx. apply has_value_sub; [apply has_value_lit|].
  apply has_value_div; [exact Hx | apply has_value_lit | discriminate].
Qed.





(** ** Configuration values that are not numbers *)

Lemma parseOr_truthy (s : string) (otherwise : number) :
  s <> "" -> Update.parseOr (Some s) otherwise = parseFloat s.
Proof.
  intros Hs. unfold Update.parseOr, truthy.
  destruct (String.eqb_spec s ""); [contradiction | reflexivity].
Qed.

(** X14. A stored value of the defaults that is not empty is used as
    [parseFloat] reads it, never replaced by the fallback; when it reads
    as not-a-number, the values that depend on it are not-a-number: all
    four for the hourly rate, the sale price, the fee and the market price
    for the multiplier, the sale price and the fee for the markup, the
    shipping and the tax. *)
Theorem malformed_configuration_propagates :
  forall (materialCosts hoursWorked : number) (productRarity : string)
         (defaults : MetafieldDefaults.t),
    let c :=
      Update.calculations materialCosts hoursWorked productRarity defaults in
    (forall s, s <> "" ->
       (MetafieldDefaults.hourlyRate defaults = Some s ->
        Update.hourlyRate c = parseFloat s) /\
       (MetafieldDefaults.etsyMarkupProfit defaults = Some s ->
        Update.markup c = parseFloat s) /\
       (MetafieldDefaults.vat defaults = Some s ->
        Update.vat c = parseFloat s) /\
       (MetafieldDefaults.shipping defaults = Some s ->
        Update.shipping c = parseFloat s) /\
       (MetafieldDefaults.etsyDiscount defaults = Some s ->
        Update.discount c = parseFloat s) /\
       (MetafieldDefaults.normalMultiplier defaults = Some s ->
        Update.normalMultiplier c = parseFloat s) /\
       (MetafieldDefaults.ooakMultiplier defaults = Some s ->
        Update.ooakMultiplier c = parseFloat s)) /\
    (isNaN (Update.hourlyRate c) = true ->
     Update.totalCost c = NaN /\ Update.finalEtsyPrice c = NaN /\
     Update.etsyFees c = NaN /\ Update.marketPrice c = NaN) /\
    (isNaN (Update.rarityMultiplier c) = true ->
     Update.finalEtsyPrice c = NaN /\ Update.etsyFees c = NaN /\
     Update.marketPrice c = NaN) /\
    (isNaN (Update.markup c) = true \/ isNaN (Update.shipping c) = true \/
     isNaN (Update.vat c) = true ->
     Update.finalEtsyPrice c = NaN /\ Update.etsyFees c = NaN).
Proof.
  intros materialCosts hoursWorked productRarity defaults c.
  pose proof (finalEtsyPrice_eq materialCosts hoursWorked productRarity
                defaults) as Hfinal.
  cbv zeta in Hfinal. fold c in Hfinal.
  assert (Hpre : Update.priceWithVat c = NaN ->
                 Update.finalEtsyPrice c = NaN /\ Update.etsyFees c = NaN).
  { intros H.
    assert (Hfees : Update.etsyFees c = NaN).
    { change (Update.etsyFees c)
        with (Update.priceWithVat c * lit 0.095 + lit 0.20)%js.
      rewrite H. reflexivity. }
    split; [|exact Hfees]. rewrite Hfinal. unfold price_before_discount.
    rewrite H, add_NaN_l, div_NaN_l. destruct (_ > _)%js; reflexivity. }
  split; [|split; [|split]].
  - intros s Hs. unfold c, Update.calculations; cbn.
    repeat split; intros ->; apply parseOr_truthy; exact Hs.
  - intros H. apply isNaN_eq in H.
    assert (Ht : Update.totalCost c = NaN).
    { change (Update.totalCost c)
        with (materialCosts + hoursWorked * Update.hourlyRate c)%js.
      rewrite H, mul_NaN_r, add_NaN_r. reflexivity. }
    assert (Hp : Update.priceWithVat c = NaN).
    { change (Update.priceWithVat c)
        with ((Update.totalCost c *
               (lit 1 + Update.markup c / lit 100) *
               Update.rarityMultiplier c + Update.shipping c) *
              (lit 1 + Update.vat c / lit 100))%js.
      rewrite Ht. reflexivity. }
    destruct (Hpre Hp) as [Hf He].
    repeat split; try assumption.
    change (Update.marketPrice c)
      with (Update.totalCost c * lit 1.05 * Update.rarityMultiplier c)%js.
    rewrite Ht. reflexivity.
  - intros H. apply isNaN_eq in H.
    assert (Hp : Update.priceWithVat c = NaN).
    { change (Update.priceWithVat c)
        with ((Update.totalCost c *
               (lit 1 + Update.markup c / lit 100) *
               Update.rarityMultiplier c + Update.shipping c) *
              (lit 1 + Update.vat c / lit 100))%js.
      rewrite H, mul_NaN_r. reflexivity. }
    destruct (Hpre Hp) as [Hf He].
    repeat split; try assumption.
    change (Update.marketPrice c)
      with (Update.totalCost c * lit 1.05 * Update.rarityMultiplier c)%js.
    rewrite H. apply mul_NaN_r.
  - intros H. apply Hpre.
    change (Update.priceWithVat c)
      with ((Update.totalCost c *
             (lit 1 + Update.markup c / lit 100) *
             Update.rarityMultiplier c + Update.shipping c) *
            (lit 1 + Update.vat c / lit 100))%js.
    destruct H as [H|[H|H]]; apply isNaN_eq in H; rewrite H.
    + rewrite div_NaN_l, add_NaN_r, mul_NaN_r. reflexivity.
    + rewrite add_NaN_r. reflexivity.
    + rewrite div_NaN_l, add_NaN_r, mul_NaN_r. reflexivity.
Qed.

Lemma malformed_configuration_propagates_witness :
  let c :=
    Update.calculations (Fin 10) (Fin 2) "NORMAL" Cases.defaults_bad_rate in
  Update.totalCost c = NaN /\ Update.finalEtsyPrice c = NaN /\
  Update.etsyFees c = NaN /\ Update.marketPrice c = NaN.
Proof.
  pose proof (malformed_configuration_propagates (Fin 10) (Fin 2) "NORMAL"
                Cases.defaults_bad_rate) as H.
  cbv zeta in H. destruct H as (_ & H & _).
  apply H. vm_compute. reflexivity.
Defined.

(** * Properties of the settings page *)

(** ** The table of the defaults *)

Module PageFacts.
Import Page.

Arguments of_shop : simpl never.

Lemma of_shop_true (shop : string) (row : MetafieldDefaults.t) :
  of_shop shop row = true <-> MetafieldDefaults.shop row = shop.
Proof. unfold of_shop. apply String.eqb_eq. Qed.

Lemma findUnique_upsert (shop : string) (data : MetafieldDefaults.t)
    (db : Db) :
  MetafieldDefaults.shop data = shop ->
  findUnique (upsert shop data db) shop = Some data.
Proof.
  intros Hd. assert (Ht : of_shop shop data = true)
    by (apply of_shop_true; exact Hd).
  unfold findUnique. induction db as [|row rest IH]; cbn.
  - rewrite Ht. reflexivity.
  - destruct (of_shop shop row) eqn:E; cbn.
    + rewrite Ht. reflexivity.
    + rewrite E. exact IH.
Qed.

Lemma findUnique_upsert_other (shop other : string)
    (data : MetafieldDefaults.t) (db : Db) :
  MetafieldDefaults.shop data = shop -> other <> shop ->
  findUnique (upsert shop data db) other = findUnique db other.
Proof.
  intros Hd Hne.
  assert (Hf : of_shop other data = false).
  { destruct (of_shop other data) eqn:E; [|reflexivity].
    apply of_shop_true in E. congruence. }
  unfold findUnique. induction db as [|row rest IH]; cbn.
  - rewrite Hf. reflexivity.
  - destruct (of_shop shop row) eqn:E; cbn.
    + rewrite Hf.
      assert (Hr : of_shop other row = false).
      { destruct (of_shop other row) eqn:E'; [|reflexivity].
        apply of_shop_true in E, E'. congruence. }
      rewrite Hr. reflexivity.
    + destruct (of_shop other row); [reflexivity | exact IH].
Qed.

Lemma upsert_shops (shop : string) (data : MetafieldDefaults.t) (db : Db) :
  MetafieldDefaults.shop data = shop ->
  List.map MetafieldDefaults.shop (upsert shop data db) =
  if List.existsb (of_shop shop) db
  then List.map MetafieldDefaults.shop db
  else (List.map MetafieldDefaults.shop db ++ [shop])%list.
Proof.
  intros Hd. induction db as [|row rest IH]; cbn.
  - rewrite Hd. reflexivity.
  - destruct (of_shop shop row) eqn:E; cbn.
    + apply of_shop_true in E. rewrite Hd, E. reflexivity.
    + rewrite IH. destruct (List.existsb (of_shop shop) rest); reflexivity.
Qed.

Lemma upsert_unique (shop : string) (data : MetafieldDefaults.t) (db : Db) :
  MetafieldDefaults.shop data = shop ->
  NoDup (List.map MetafieldDefaults.shop db) ->
  NoDup (List.map MetafieldDefaults.shop (upsert shop data db)).
Proof.
  intros Hd Hnd. rewrite (upsert_shops shop data db Hd).
  destruct (List.existsb (of_shop shop) db) eqn:E; [exact Hnd|].
  apply NoDup_app; [exact Hnd | repeat constructor; intros [] |].
  intros s Hs [<-|[]]. apply in_map_iff in Hs.
  destruct Hs as (row & Hrow & Hin).
  assert (List.existsb (of_shop shop) db = true).
  { apply existsb_exists. exists row. split; [exact Hin|].
    apply of_shop_true. exact Hrow. }
  congruence.
Qed.

Lemma upsert_twice (shop : string) (data : MetafieldDefaults.t)
    (db : Db) :
  MetafieldDefaults.shop data = shop ->
  upsert shop data (upsert shop data db) = upsert shop data db.
Proof.
  intros Hd. assert (Ht : of_shop shop data = true)
    by (apply of_shop_true; exact Hd).
  induction db as [|row rest IH]; cbn.
  - rewrite Ht. reflexivity.
  - destruct (of_shop shop row) eqn:E; cbn.
    + rewrite Ht. reflexivity.
    + rewrite E, IH. reflexivity.
Qed.

Lemma upsert_length (shop : string) (data : MetafieldDefaults.t) (db : Db) :
  List.length (upsert shop data db) =
  if List.existsb (of_shop shop) db then List.length db
  else S (List.length db).
Proof.
  induction db as [|row rest IH]; cbn; [reflexivity|].
  destruct (of_shop shop row); cbn; [reflexivity|].
  rewrite IH. destruct (List.existsb (of_shop shop) rest); reflexivity.
Qed.

Lemma existsb_findUnique (shop : string) (db : Db) :
  List.existsb (of_shop shop) db =
  match findUnique db shop with Some _ => true | None => false end.
Proof.
  unfold findUnique. induction db as [|row rest IH]; cbn; [reflexivity|].
  destruct (of_shop shop row); [reflexivity | exact IH].
Qed.

End PageFacts.

(** X15. Saving the settings stores the posted form as the row of the
    shop of the admin session: the action answers with success and that
    row, the loader then returns it, the rows of the other shops are
    untouched, the table grows by at most the one row of a shop that had
    none, and no shop gets a second row.  A request that is not
    authenticated stores nothing. *)
Theorem settings_are_stored_per_shop :
  forall (authenticate_admin : string -> Error + string)
         (request : string) (formData : Settings.FormData) (db : Page.Db),
    (forall e, authenticate_admin request = inl e ->
               Page.action authenticate_admin request formData db = inl e) /\
    (forall shop,
        authenticate_admin request = inr shop ->
        let data := Settings.data shop formData in
        exists db',
          Page.action authenticate_admin request formData db =
          inr ({| Page.ActionData.success := true;
                  Page.ActionData.defaults := data |}, db') /\
          Page.loader authenticate_admin request db' =
          inr {| Page.LoaderData.defaults := Some data |} /\
          (forall other, other <> shop ->
                         Page.findUnique db' other
                         = Page.findUnique db other) /\
          (NoDup (List.map MetafieldDefaults.shop db) ->
           NoDup (List.map MetafieldDefaults.shop db')) /\
          (List.length db' =
           match Page.findUnique db shop with
           | Some _ => List.length db
           | None => S (List.length db)
           end)).
Proof.
  intros authenticate_admin request formData db. split.
  - intros e He. unfold Page.action. rewrite He. reflexivity.
  - intros shop Hs data. exists (Page.upsert shop data db).
    unfold Page.action, Page.loader. rewrite Hs. fold data.
    split; [reflexivity|]. split; [|split; [|split]].
    + rewrite (PageFacts.findUnique_upsert shop data db eq_refl).
      reflexivity.
    + intros other Hne.
      apply (PageFacts.findUnique_upsert_other shop other data db eq_refl
               Hne).
    + apply PageFacts.upsert_unique. reflexivity.
    + rewrite PageFacts.upsert_length, PageFacts.existsb_findUnique.
      destruct (Page.findUnique db shop); reflexivity.
Qed.

Lemma settings_are_stored_per_shop_witness :
  exists db',
    Page.action Cases.admin "save"
      (Page.get (Page.handleSubmit Cases.typed)) []
    = inr ({| Page.ActionData.success := true;
              Page.ActionData.defaults :=
                Page.submitted "demo.myshopify.com" Cases.typed |}, db') /\
    Page.loader Cases.admin "open" db'
    = inr {| Page.LoaderData.defaults :=
               Some (Page.submitted "demo.myshopify.com" Cases.typed) |}.
Proof.
  destruct (proj2 (settings_are_stored_per_shop Cases.admin "save"
                     (Page.get (Page.handleSubmit Cases.typed)) [])
              "demo.myshopify.com" eq_refl)
    as (db' & Ha & Hl & _).
  exists db'. split; [exact Ha | exact Hl].
Defined.

(** ** The form *)

Lemma name_injective (f g : Page.Field) : Page.name f = Page.name g -> f = g.
Proof. destruct f, g; intros H; try reflexivity; discriminate H. Qed.

Lemma Field_eqb_eq (f g : Page.Field) : Page.Field_eqb f g = true <-> f = g.
Proof.
  unfold Page.Field_eqb. rewrite String.eqb_eq. split.
  - apply name_injective.
  - intros ->. reflexivity.
Qed.

(** What the posted form holds under the name of a field. *)
Lemma get_handleSubmit (formData : Page.State) (f : Page.Field) :
  Page.get (Page.handleSubmit formData) (Page.name f) =
  if (formData f =? "")%string then None else Some (formData f).
Proof.
  unfold Page.get, Page.handleSubmit, truthy.
  cbn [List.flat_map Page.fields].
  destruct f; cbn [Page.name];
    repeat match goal with
           | |- context [(formData ?g =? "")%string] =>
               destruct (formData g =? "")%string
           end;
    reflexivity.
Qed.

Lemma column_data (shop : string) (formData : Settings.FormData)
    (f : Page.Field) :
  Page.column f (Settings.data shop formData)
  = Settings.orNull (formData (Page.name f)).
Proof. destruct f; reflexivity. Qed.

Lemma column_submitted (shop : string) (formData : Page.State)
    (f : Page.Field) :
  Page.column f (Page.submitted shop formData) =
  if (formData f =? "")%string then None else Some (formData f).
Proof.
  unfold Page.submitted. rewrite column_data, get_handleSubmit.
  unfold Settings.orNull, truthy.
  destruct (formData f =? "")%string eqn:E; [reflexivity|].
  rewrite E. reflexivity.
Qed.

(** A row is known by its shop and its columns. *)
Lemma row_ext (r r' : MetafieldDefaults.t) :
  MetafieldDefaults.shop r = MetafieldDefaults.shop r' ->
  (forall f, Page.column f r = Page.column f r') -> r = r'.
Proof.
  intros Hs Hc. destruct r, r'. cbn in Hs. subst.
  pose proof (Hc Page.etsyDiscount) as H1.
  pose proof (Hc Page.shipping) as H2.
  pose proof (Hc Page.vat) as H3.
  pose proof (Hc Page.normalMultiplier) as H4.
  pose proof (Hc Page.ooakMultiplier) as H5.
  pose proof (Hc Page.etsyMarkupProfit) as H6.
  pose proof (Hc Page.hourlyRate) as H7.
  pose proof (Hc Page.rarity) as H8.
  cbn in H1, H2, H3, H4, H5, H6, H7, H8. subst. reflexivity.
Qed.

Lemma data_normalized (shop : string) (formData : Settings.FormData) :
  normalized (Settings.data shop formData).
Proof.
  intros f H. rewrite column_data in H.
  apply settings_orNull in H. apply H. reflexivity.
Qed.

Lemma submitted_initial (shop : string) (row : MetafieldDefaults.t) :
  MetafieldDefaults.shop row = shop -> normalized row ->
  Page.submitted shop (Page.initial (Some row)) = row.
Proof.
  intros Hs Hn. apply row_ext; [symmetry; exact Hs|].
  intros f. rewrite column_submitted. unfold Page.initial, Page.orEmpty.
  specialize (Hn f). destruct (Page.column f row) as [s|]; [|reflexivity].
  destruct (String.eqb_spec s "") as [->|Hne]; [contradiction | reflexivity].
Qed.

(** X16. Opening the settings page and submitting the form as it was
    loaded stores the row that was loaded: the form state made of a row
    posts, for every field, the value of the row, an empty string counting
    as no value; a row without empty strings, as every row that the action
    stores is, comes back as it is, so that saving again after a save
    leaves the table as it is; and the form of a shop without a row posts
    no value at all. *)
Theorem unchanged_form_saves_the_same_row :
  forall (shop : string),
    (forall row f,
        Page.column f (Page.submitted shop (Page.initial (Some row)))
        = Settings.orNull (Page.column f row)) /\
    (forall row,
        MetafieldDefaults.shop row = shop -> normalized row ->
        Page.submitted shop (Page.initial (Some row)) = row) /\
    (forall formData, normalized (Settings.data shop formData)) /\
    (forall f, Page.column f (Page.submitted shop (Page.initial None))
               = None) /\
    (forall (authenticate_admin : string -> Error + string)
            (request : string) (formData : Settings.FormData)
            (db db' : Page.Db) (result : Page.ActionData.t)
            (loaded : Page.LoaderData.t),
        authenticate_admin request = inr shop ->
        Page.action authenticate_admin request formData db
        = inr (result, db') ->
        Page.loader authenticate_admin request db' = inr loaded ->
        Page.action authenticate_admin request
          (Page.get
             (Page.handleSubmit
                (Page.initial (Page.LoaderData.defaults loaded))))
          db'
        = inr (result, db')).
Proof.
  intros shop. split; [|split; [|split; [|split]]].
  - intros row f. rewrite column_submitted.
    unfold Page.initial, Page.orEmpty, Settings.orNull, truthy.
    destruct (Page.column f row) as [s|]; [|reflexivity].
    destruct (s =? "")%string; reflexivity.
  - apply submitted_initial.
  - apply data_normalized.
  - intros f. rewrite column_submitted. reflexivity.
  - intros authenticate_admin request formData db db' result loaded
      Hs Ha Hl.
    unfold Page.action in Ha. rewrite Hs in Ha. injection Ha as <- <-.
    unfold Page.loader in Hl. rewrite Hs in Hl.
    rewrite (PageFacts.findUnique_upsert shop
               (Settings.data shop formData) db eq_refl) in Hl.
    injection Hl as <-. cbn [Page.LoaderData.defaults].
    unfold Page.action. rewrite Hs.
    change (Settings.data shop
              (Page.get
                 (Page.handleSubmit
                    (Page.initial (Some (Settings.data shop formData))))))
      with (Page.submitted shop
              (Page.initial (Some (Settings.data shop formData)))).
    rewrite (submitted_initial shop (Settings.data shop formData) eq_refl
               (data_normalized shop formData)).
    rewrite (PageFacts.upsert_twice shop
               (Settings.data shop formData) db eq_refl).
    reflexivity.
Qed.

Lemma unchanged_form_saves_the_same_row_witness :
  Page.submitted "demo.myshopify.com"
    (Page.initial (Some Examples.defaults_A))
  = Examples.defaults_A.
Proof.
  apply (proj1 (proj2 (unchanged_form_saves_the_same_row
                         "demo.myshopify.com"))).
  - reflexivity.
  - intros f. destruct f; discriminate.
Defined.

(** X17. A change of one field of the form changes the stored value of
    that field only: the value typed last is stored as it is, an emptied
    field is stored as [null], and every other field is stored as it would
    have been without the change. *)
Theorem changed_field_is_stored :
  forall (shop : string) (formData : Page.State) (f : Page.Field)
         (value : string),
    let changed := Page.handleChange f value formData in
    Page.column f (Page.submitted shop changed)
    = (if (value =? "")%string then None else Some value) /\
    (forall g, g <> f ->
               Page.column g (Page.submitted shop changed)
               = Page.column g (Page.submitted shop formData)) /\
    (forall earlier,
        Page.submitted shop
          (Page.handleChange f value (Page.handleChange f earlier formData))
        = Page.submitted shop changed) /\
    MetafieldDefaults.shop (Page.submitted shop changed) = shop.
Proof.
  intros shop formData f value changed.
  assert (Hsame : forall g, g = f -> changed g = value).
  { intros g ->. unfold changed, Page.handleChange.
    rewrite (proj2 (Field_eqb_eq f f) eq_refl). reflexivity. }
  assert (Hother : forall st g, g <> f ->
                                Page.handleChange f value st g = st g).
  { intros st g Hne. unfold Page.handleChange.
    destruct (Page.Field_eqb g f) eqn:E; [|reflexivity].
    apply Field_eqb_eq in E. contradiction. }
  split; [|split; [|split]].
  - rewrite column_submitted, (Hsame f eq_refl). reflexivity.
  - intros g Hne. rewrite !column_submitted. unfold changed.
    rewrite (Hother formData g Hne). reflexivity.
  - intros earlier. apply row_ext; [reflexivity|].
    intros g. rewrite !column_submitted. unfold changed, Page.handleChange.
    destruct (Page.Field_eqb g f); reflexivity.
  - reflexivity.
Qed.

Lemma changed_field_is_stored_witness :
  Page.column Page.vat
    (Page.submitted "demo.myshopify.com"
       (Page.handleChange Page.rarity "OOAK"
          (Page.handleChange Page.vat "21" (Page.initial None))))
  = Some "21".
Proof.
  pose proof (changed_field_is_stored "demo.myshopify.com"
                (Page.handleChange Page.vat "21" (Page.initial None))
                Page.rarity "OOAK") as H.
  cbv zeta in H. destruct H as (_ & H & _).
  rewrite (H Page.vat) by discriminate.
  pose proof (changed_field_is_stored "demo.myshopify.com"
                (Page.initial None) Page.vat "21") as H'.
  cbv zeta in H'. destruct H' as (H' & _). rewrite H'. reflexivity.
Defined.

(** ** From the form to the handlers *)

Lemma constant_of_submitted (shop : string) (formData : Page.State)
    (materialCosts hoursWorked : number) (productRarity : string)
    (f : Page.Field) (x : number) :
  constant_of f
    (Update.calculations materialCosts hoursWorked productRarity
       (Page.submitted shop formData)) = Some x ->
  x = if (formData f =? "")%string then fallback_of f
      else parseFloat (formData f).
Proof.
  intros H.
  assert (Hor : forall g otherwise,
    Update.parseOr (Page.column g (Page.submitted shop formData)) otherwise
    = if (formData g =? "")%string then otherwise
      else parseFloat (formData g)).
  { intros g otherwise. rewrite column_submitted.
    destruct (String.eqb_spec (formData g) "") as [E|E];
      [reflexivity | apply parseOr_truthy; exact E]. }
  destruct f; cbn in H; try discriminate H; injection H as <-;
    [ apply (Hor Page.etsyDiscount) | apply (Hor Page.shipping)
    | apply (Hor Page.vat) | apply (Hor Page.normalMultiplier)
    | apply (Hor Page.ooakMultiplier) | apply (Hor Page.etsyMarkupProfit)
    | apply (Hor Page.hourlyRate) ].
Qed.

(** X18. What the merchant types into the form is what the handlers use.
    The create handler seeds a new product with the values of the fields
    that were not left empty, as they were typed.  The update calculation
    reads each of its seven constants from the value typed into its field,
    and takes the fallback for a field left empty; the default rarity of
    the form does not enter the calculation.  After an empty form was
    saved the shop has a row without values: the create handler has
    nothing to seed and the update calculation runs on the fallbacks. *)
Theorem typed_values_reach_the_handlers :
  forall (shop : string) (formData : Page.State),
    let row := Page.submitted shop formData in
    (forall mf,
        In mf (Create.metafields_of row) <->
        exists f key type,
          In (Page.column f, key, type) seeded /\ formData f <> "" /\
          mf = {| Create.Mf.namespace := "custom"; Create.Mf.key := key;
                  Create.Mf.value := formData f; Create.Mf.type := type |}) /\
    (forall materialCosts hoursWorked productRarity f x,
        constant_of f
          (Update.calculations materialCosts hoursWorked productRarity row)
        = Some x ->
        x = if (formData f =? "")%string then fallback_of f
            else parseFloat (formData f)) /\
    (forall materialCosts hoursWorked productRarity value,
        Update.calculations materialCosts hoursWorked productRarity
          (Page.submitted shop
             (Page.handleChange Page.rarity value formData))
        = Update.calculations materialCosts hoursWorked productRarity row) /\
    ((forall f, formData f = "") ->
     Create.metafields_of row = [] /\ all_absent row /\
     forall materialCosts hoursWorked productRarity,
       all_fallback
         (Update.calculations materialCosts hoursWorked productRarity row)).
Proof.
  intros shop formData row.
  assert (Hpresent : forall f s,
    present (Page.column f row) s <-> formData f <> "" /\ s = formData f).
  { intros f s. unfold present, row. rewrite column_submitted.
    destruct (String.eqb_spec (formData f) "") as [E|E]; split.
    - intros [H _]. discriminate H.
    - intros [H _]. contradiction.
    - intros [H Hs]. injection H as <-. auto.
    - intros [_ ->]. auto. }
  assert (Hin : forall mf,
    In mf (Create.metafields_of row) <->
    exists f key type,
      In (Page.column f, key, type) seeded /\ formData f <> "" /\
      mf = {| Create.Mf.namespace := "custom"; Create.Mf.key := key;
              Create.Mf.value := formData f; Create.Mf.type := type |}).
  { intros mf. rewrite metafields_of_seeded, in_flat_map. split.
    + intros ([[f0 key] type] & Hseed & Hmf). cbn in Hmf.
      apply in_pushed in Hmf. destruct Hmf as (s & Hs & ->).
      cbn in Hseed.
      repeat (destruct Hseed as [Hseed|Hseed];
              [injection Hseed as <- <- <-;
               match type of Hs with
               | present (?col row) s =>
                   match goal with
                   | |- _ =>
                       first
                         [ change (present (Page.column Page.etsyDiscount
                                              row) s) in Hs;
                           apply Hpresent in Hs; destruct Hs as [Hne ->];
                           exists Page.etsyDiscount
                         | change (present (Page.column Page.shipping
                                              row) s) in Hs;
                           apply Hpresent in Hs; destruct Hs as [Hne ->];
                           exists Page.shipping
                         | change (present (Page.column Page.vat row) s)
                             in Hs;
                           apply Hpresent in Hs; destruct Hs as [Hne ->];
                           exists Page.vat
                         | change (present (Page.column Page.normalMultiplier
                                              row) s) in Hs;
                           apply Hpresent in Hs; destruct Hs as [Hne ->];
                           exists Page.normalMultiplier
                         | change (present (Page.column Page.ooakMultiplier
                                              row) s) in Hs;
                           apply Hpresent in Hs; destruct Hs as [Hne ->];
                           exists Page.ooakMultiplier
                         | change (present (Page.column Page.rarity row) s)
                             in Hs;
                           apply Hpresent in Hs; destruct Hs as [Hne ->];
                           exists Page.rarity
                         | change (present (Page.column Page.etsyMarkupProfit
                                              row) s) in Hs;
                           apply Hpresent in Hs; destruct Hs as [Hne ->];
                           exists Page.etsyMarkupProfit
                         | change (present (Page.column Page.hourlyRate
                                              row) s) in Hs;
                           apply Hpresent in Hs; destruct Hs as [Hne ->];
                           exists Page.hourlyRate ]
                   end
               end;
               eexists; eexists;
               split; [cbn; tauto | split; [exact Hne | reflexivity]]
              |]).
      destruct Hseed.
    + intros (f & key & type & Hseed & Hne & ->).
      exists (Page.column f, key, type). split; [exact Hseed|]. cbn.
      apply in_pushed. exists (formData f). split; [|reflexivity].
      apply Hpresent. auto. }
  split; [exact Hin|]. split; [|split].
  - intros materialCosts hoursWorked productRarity f x.
    apply constant_of_submitted.
  - intros materialCosts hoursWorked productRarity value.
    assert (Hcol : forall g, g <> Page.rarity ->
      Page.column g
        (Page.submitted shop (Page.handleChange Page.rarity value formData))
      = Page.column g row).
    { intros g Hne. unfold row. rewrite !column_submitted.
      unfold Page.handleChange.
      destruct (Page.Field_eqb g Page.rarity) eqn:E; [|reflexivity].
      apply Field_eqb_eq in E. contradiction. }
    pose proof (Hcol Page.etsyDiscount ltac:(discriminate)) as H1.
    pose proof (Hcol Page.shipping ltac:(discriminate)) as H2.
    pose proof (Hcol Page.vat ltac:(discriminate)) as H3.
    pose proof (Hcol Page.normalMultiplier ltac:(discriminate)) as H4.
    pose proof (Hcol Page.ooakMultiplier ltac:(discriminate)) as H5.
    pose proof (Hcol Page.etsyMarkupProfit ltac:(discriminate)) as H6.
    pose proof (Hcol Page.hourlyRate ltac:(discriminate)) as H7.
    cbn [Page.column] in H1, H2, H3, H4, H5, H6, H7.
    unfold Update.calculations.
    rewrite H1, H2, H3, H4, H5, H6, H7. reflexivity.
  - intros Hempty.
    assert (Hnone : forall f, Page.column f row = None).
    { intros f. unfold row. rewrite column_submitted, (Hempty f).
      reflexivity. }
    assert (Habsent : all_absent row).
    { pose proof (Hnone Page.etsyDiscount) as H1.
      pose proof (Hnone Page.shipping) as H2.
      pose proof (Hnone Page.vat) as H3.
      pose proof (Hnone Page.normalMultiplier) as H4.
      pose proof (Hnone Page.ooakMultiplier) as H5.
      pose proof (Hnone Page.etsyMarkupProfit) as H6.
      pose proof (Hnone Page.hourlyRate) as H7.
      cbn [Page.column] in H1, H2, H3, H4, H5, H6, H7.
      unfold all_absent. rewrite H1, H2, H3, H4, H5, H6, H7.
      repeat split. }
    split; [|split; [exact Habsent|]].
    + destruct (Create.metafields_of row) as [|mf rest] eqn:E;
        [reflexivity|].
      destruct (proj1 (Hin mf)) as (f & _ & _ & _ & Hne & _).
      { rewrite ?E. left. reflexivity. }
      exfalso. apply Hne. apply Hempty.
    + intros materialCosts hoursWorked productRarity.
      apply all_absent_all_fallback. exact Habsent.
Qed.

Lemma typed_values_reach_the_handlers_witness :
  Create.metafields_of
    (Page.submitted "demo.myshopify.com" (Page.initial None)) = [] /\
  all_fallback
    (Update.calculations (Fin 10) (Fin 2) "NORMAL"
       (Page.submitted "demo.myshopify.com" (Page.initial None))).
Proof.
  pose proof (typed_values_reach_the_handlers "demo.myshopify.com"
                (Page.initial None)) as H.
  cbv zeta in H. destruct H as (_ & _ & _ & H).
  destruct (H (fun f => eq_refl)) as (Hm & _ & Hf).
  split; [exact Hm | apply Hf].
Defined.

(** * Replay of a create notification *)

Lemma create_run_catalog (u : Remote.Upstream) (cat cat' : Remote.Catalog)
    (request : string) :
  run (Create.action (Remote.env_of u cat) request)
  = run (Create.action (Remote.env_of u cat') request).
Proof. reflexivity. Qed.

Lemma metafieldsSetInput_keys (productGid : string)
    (metafields : list Create.Mf.t) :
  List.map Input.key (Create.metafieldsSetInput productGid metafields)
  = List.map Create.Mf.key metafields.
Proof.
  unfold Create.metafieldsSetInput. rewrite map_map. reflexivity.
Qed.

Lemma create_writes_shape (env : Env) (request : string) :
  writes (snd (run (Create.action env request))) = [] \/
  exists l,
    writes (snd (run (Create.action env request))) = [l] /\
    NoDup (List.map Input.key l).
Proof.
  destruct (authenticate_webhook env request) as [e|w] eqn:Hw.
  - left. exec. rewrite Hw. reflexivity.
  - rewrite (create_writes env request w Hw).
    destruct (sessionStorage_loadSession env ("offline_" ++ shop w))
      as [e|[session|]]; auto.
    destruct (prisma_findUnique env (shop w)) as [e|[defaults|]]; auto.
    destruct (Create.metafields_of defaults) as [|mf rest] eqn:E; auto.
    right. eexists. split; [reflexivity|].
    rewrite metafieldsSetInput_keys, <- E.
    apply (metafields_of_keys defaults).
Qed.

(** X19. A created-item notification that is delivered again is answered
    alike, sends the same calls and leaves the catalog as the first
    delivery left it: the handler reads nothing from the catalog, and its
    mutation overwrites each attribute with the same value. *)
Theorem create_replay_is_idempotent :
  forall (u : Remote.Upstream) (request : string) (cat : Remote.Catalog),
    let first := Remote.deliver Create.action u request cat in
    let second :=
      Remote.deliver Create.action u request (catalog_of first) in
    completion_of second = completion_of first /\
    trace_of second = trace_of first /\
    catalog_of second = catalog_of first.
Proof.
  intros u request cat first second.
  unfold second, first, Remote.deliver, completion_of, trace_of, catalog_of.
  destruct (run (Create.action (Remote.env_of u cat) request))
    as [c1 tr1] eqn:E1. cbn [fst snd].
  set (cat1 :=
         List.fold_left (fun cat l => Remote.metafieldsSet u l cat)
           (writes tr1) cat).
  rewrite (create_run_catalog u cat1 cat request), E1. cbn [fst snd].
  split; [reflexivity|]. split; [reflexivity|].
  unfold cat1.
  destruct (create_writes_shape (Remote.env_of u cat) request)
    as [H|(l & H & Hnd)];
    rewrite E1 in H; cbn [snd] in H; rewrite H; cbn [List.fold_left].
  - reflexivity.
  - apply RemoteFacts.metafieldsSet_idempotent. exact Hnd.
Qed.
